(** * pyhdk: the binding initializer of the HDK engine

    A shallow embedding of [python/pyhdk/__init__.py].  The module body is a
    straight-line program over process-wide state: the dlopen flag mask of the
    interpreter, the environment, the DLL search path and [sys.modules].  It is
    written here in a small state-and-exception monad, one primitive per
    library call of the source, and the statements of the source are kept in
    their order. *)

From Stdlib Require Import ZArith Lia Ascii String.
From stdpp Require Import base option strings list gmap fin_maps.

Local Open Scope Z_scope.
Local Open Scope string_scope.
Local Open Scope list_scope.

(** ** Values, exceptions, events *)

(** The Python values the initializer handles.  Modules are reference objects:
    a [VModule] names an entry of [sys.modules], so two bindings of one module
    alias the same dictionary.  Objects defined by the native engine are
    opaque to the wrapper and are only passed around. *)
Inductive PyValue : Type :=
| VNone
| VInt (z : Z)
| VStr (s : string)
| VModule (name : string)
| VForeign (tag : string).

#[global] Instance PyValue_eq_dec : EqDecision PyValue.
Proof. solve_decision. Defined.

(** Exceptions.  [ImportErrorName n m] is the [ImportError] that
    [from m import n] raises when [m] has no [n]; its message names both and
    the place [m] was loaded from.  [OSError f] stands for [OSError] and its
    subclasses such as [FileNotFoundError], with the file name [f]. *)
Inductive Exn : Type :=
| RuntimeError (msg : string)
| KeyError (key : string)
| NameError (name : string)
| TypeError (msg : string)
| ImportError (msg : string)
| ImportErrorName (name module : string)
| AttributeError (name : string)
| OSError (filename : string)
| EngineError (tag : string).

Inductive Result (A : Type) : Type :=
| Ok (a : A)
| Raise (e : Exn).
Arguments Ok {A} a.
Arguments Raise {A} e.

(** Sequencing of results, for code that only reads the state. *)
Definition rbind {A B} (r : Result A) (f : A -> Result B) : Result B :=
  match r with
  | Ok a => f a
  | Raise e => Raise e
  end.

Notation "x <~ c1 ;; c2" := (rbind c1 (fun x => c2))
  (at level 100, c1 at next level, right associativity).

(** A log of the library calls made, oldest first.  It is ghost state: the
    source has no such log, the model keeps one so that "never calls" and
    "calls before" can be stated.  Import events carry the flag mask in force
    when they happen. *)
Inductive Event : Type :=
| EvGetFlags
| EvSetFlags (z : Z)
| EvEnvRead (key : string)
| EvAddDll (dir : string)
| EvImport (name : string) (flags : Z)
| EvLoad (name : string) (flags : Z)
| EvCall (obj : PyValue) (meth : string).

(** ** Process state *)

Record World : Type := mkWorld {
  platform : string;                          (* sys.platform *)
  dlopenflags : Z;                            (* sys.getdlopenflags() *)
  environ : gmap string string;               (* os.environ *)
  dll_dirs : list string;                     (* os.add_dll_directory calls *)
  sys_modules : gmap string (gmap string PyValue);   (* sys.modules *)
  trace : list Event
}.

Definition set_dlopenflags (z : Z) (w : World) : World :=
  mkWorld (platform w) z (environ w) (dll_dirs w) (sys_modules w) (trace w).
Definition set_dll_dirs (d : list string) (w : World) : World :=
  mkWorld (platform w) (dlopenflags w) (environ w) d (sys_modules w) (trace w).
Definition set_sys_modules (sm : gmap string (gmap string PyValue)) (w : World) : World :=
  mkWorld (platform w) (dlopenflags w) (environ w) (dll_dirs w) sm (trace w).
Definition log (e : Event) (w : World) : World :=
  mkWorld (platform w) (dlopenflags w) (environ w) (dll_dirs w) (sys_modules w)
          (trace w ++ [e]).

(** What the wrapper calls but does not define: [os.path.join], the code of
    the engine's modules, the methods of the engine's objects, and the
    operating system's verdict on a directory handed to
    [os.add_dll_directory] (it must exist and be absolute).  Loading an
    engine module either raises or yields the module's dictionary; a method
    call either raises or returns a value.  Engine code is taken to be
    deterministic and to leave the state the wrapper works on alone: the
    dlopen flag mask, the environment, the DLL search path, the package's own
    globals. *)
Record Host : Type := mkHost {
  path_join : string -> list string -> string;
  load_module : string -> Result (gmap string PyValue);
  call_method : PyValue -> string -> Result PyValue;
  dll_directory_ok : string -> bool
}.

(** ** The monad *)

Definition M (A : Type) : Type := World -> Result A * World.

Definition ret {A} (a : A) : M A := fun w => (Ok a, w).
Definition raise {A} (e : Exn) : M A := fun w => (Raise e, w).
Definition bind {A B} (m : M A) (f : A -> M B) : M B :=
  fun w => match m w with
           | (Ok a, w') => f a w'
           | (Raise e, w') => (Raise e, w')
           end.

Notation "x <- c1 ;; c2" := (bind c1 (fun x => c2))
  (at level 100, c1 at next level, right associativity).
Notation "c1 ;; c2" := (bind c1 (fun _ => c2))
  (at level 100, right associativity).

(** ** Library primitives *)

(** The name under which the package is registered in [sys.modules]. *)
Definition pkg : string := "pyhdk".

(** Linux values of the two [os] constants. *)
Definition RTLD_LAZY : Z := 1.
Definition RTLD_GLOBAL : Z := 256.

Definition sys_platform : M string := fun w => (Ok (platform w), w).

Definition sys_getdlopenflags : M PyValue :=
  fun w => (Ok (VInt (dlopenflags w)), log EvGetFlags w).

Definition sys_setdlopenflags (v : PyValue) : M unit :=
  fun w => match v with
           | VInt z => (Ok tt, set_dlopenflags z (log (EvSetFlags z) w))
           | _ => (Raise (TypeError "an integer is required"), w)
           end.

(** [key in os.environ] *)
Definition environ_contains (key : string) : M bool :=
  fun w => (Ok (bool_decide (is_Some (environ w !! key))), log (EvEnvRead key) w).

(** [os.environ[key]] *)
Definition environ_getitem (key : string) : M string :=
  fun w => match environ w !! key with
           | Some v => (Ok v, log (EvEnvRead key) w)
           | None => (Raise (KeyError key), log (EvEnvRead key) w)
           end.

(** The dictionary of a registered module (empty when it is not registered). *)
Definition module_dict (m : string) (w : World) : gmap string PyValue :=
  default ∅ (sys_modules w !! m).

Definition module_setattr (m n : string) (v : PyValue) (w : World) : World :=
  set_sys_modules (<[m := <[n := v]> (module_dict m w)]> (sys_modules w)) w.

(** The globals of the module body being run are the dictionary of the
    package, which the import system registers before the body starts. *)
Definition globals (w : World) : gmap string PyValue := module_dict pkg w.

Definition store_global (n : string) (v : PyValue) : M unit :=
  fun w => (Ok tt, module_setattr pkg n v w).

Definition load_global (n : string) : M PyValue :=
  fun w => match globals w !! n with
           | Some v => (Ok v, w)
           | None => (Raise (NameError n), w)
           end.

(** [v.n] for a module [v]: the entry of its dictionary. *)
Definition getattr (w : World) (v : PyValue) (n : string) : Result PyValue :=
  match v with
  | VModule m =>
    match sys_modules w !! m with
    | Some d =>
      match d !! n with
      | Some x => Ok x
      | None => Raise (AttributeError n)
      end
    | None => Raise (AttributeError n)
    end
  | _ => Raise (AttributeError n)
  end.

(** [name.rpartition(".")]: the parent package, if any, and the last
    component of a dotted module name. *)
Fixpoint rsplit_dot (s : string) : option string * string :=
  match s with
  | EmptyString => (None, EmptyString)
  | String c s' =>
    match rsplit_dot s' with
    | (Some p, child) => (Some (String c p), child)
    | (None, child) =>
      if Ascii.eqb c "."%char then (Some EmptyString, child)
      else (None, String c child)
    end
  end.

Section Initializer.

Context (h : Host).

(** ** The import statement

    [import_module] is the import of a submodule whose parent package is
    already registered (here always the package being initialised).  A module
    found in [sys.modules] is not run again.  Otherwise the engine's module
    code runs; if it raises nothing is registered and the exception passes
    through; if it returns, the module is registered and bound in its parent
    under its last name component. *)
Definition import_module (name : string) : M unit := fun w =>
  let w0 := log (EvImport name (dlopenflags w)) w in
  match sys_modules w0 !! name with
  | Some _ => (Ok tt, w0)
  | None =>
    let w1 := log (EvLoad name (dlopenflags w0)) w0 in
    match load_module h name with
    | Raise e => (Raise e, w1)
    | Ok d =>
      let w2 := set_sys_modules (<[name := d]> (sys_modules w1)) w1 in
      match rsplit_dot name with
      | (Some parent, child) =>
        (Ok tt, module_setattr parent child (VModule name) w2)
      | (None, _) => (Ok tt, w2)
      end
    end
  end.

(** The attribute lookup of [from name import n].  When the attribute is
    missing CPython looks for a module registered as [name.n] before it
    raises; the engine modules are extension modules, not packages, and have
    no submodules, so the lookup is left out.  With it the statement could
    only raise less often. *)
Definition import_from_attr (name n : string) : M PyValue := fun w =>
  match module_dict name w !! n with
  | Some v => (Ok v, w)
  | None => (Raise (ImportErrorName n name), w)
  end.

Fixpoint bind_names (name : string) (names : list string) : M unit :=
  match names with
  | [] => ret tt
  | n :: rest =>
    v <- import_from_attr name n ;;
    store_global n v ;;
    bind_names name rest
  end.

(** [from name import n1, n2, ...] *)
Definition import_from (name : string) (names : list string) : M unit :=
  import_module name ;;
  bind_names name names.

(** [import name as alias] *)
Definition import_as (name alias : string) : M unit :=
  import_module name ;;
  store_global alias (VModule name).

(** [obj.meth()] on an object of the engine. *)
Definition call (obj : PyValue) (meth : string) : M PyValue :=
  fun w => (call_method h obj meth, log (EvCall obj meth) w).

(** [os.add_dll_directory(dir)]: the directory joins the search path if the
    system accepts it; if not the call raises. *)
Definition os_add_dll_directory (dir : string) : M unit := fun w =>
  let w1 := log (EvAddDll dir) w in
  if dll_directory_ok h dir
  then (Ok tt, set_dll_dirs (dll_dirs w ++ [dir]) w1)
  else (Raise (OSError dir), w1).

(** ** The module body *)

(** Lines 13-21: the platform branch. *)
Definition platform_setup : M unit :=
  p <- sys_platform ;;
  if decide (p = "linux") then
    prev <- sys_getdlopenflags ;;
    store_global "prev" prev ;;
    sys_setdlopenflags (VInt (Z.lor RTLD_LAZY RTLD_GLOBAL))
  else if decide (p = "win32") then
    present <- environ_contains "JAVA_HOME" ;;
    if negb present then
      raise (RuntimeError
        "HDK engine requires JAVA_HOME environment variable to point to Java runtime location.")
    else
      java_home <- environ_getitem "JAVA_HOME" ;;
      os_add_dll_directory (path_join h java_home ["bin"; "server"])
  else ret tt.

(** Lines 23-29: the imports of the engine's modules. *)
Definition import_block : M unit :=
  import_from "pyhdk._common" ["TypeInfo"; "buildConfig"; "initLogger"] ;;
  import_from "pyhdk._execute" ["Executor"] ;;
  import_as "pyhdk.sql" "sql" ;;
  import_as "pyhdk.storage" "storage" ;;
  import_from "pyhdk.hdk" ["init"] ;;
  import_from "pyhdk._builder" ["QueryBuilder"] ;;
  import_from "pyhdk.version" ["Version"].

(** Lines 31-32. *)
Definition restore_flags : M unit :=
  p <- sys_platform ;;
  if decide (p = "linux") then
    prev <- load_global "prev" ;;
    sys_setdlopenflags prev
  else ret tt.

(** Line 34. *)
Definition set_version : M unit :=
  version <- load_global "Version" ;;
  s <- call version "str" ;;
  store_global "__version__" s.

Definition pyhdk_body : M unit :=
  platform_setup ;;
  import_block ;;
  restore_flags ;;
  set_version.

(** ** [import pyhdk]

    The import system runs the body of a module once: a package already in
    [sys.modules] is returned as it is.  A new module is registered before its
    body runs, and removed again when the body raises.  The attributes the
    import system itself sets on a new module ([__name__] and the like) are
    left out. *)
Definition register_pkg (w : World) : World :=
  set_sys_modules (<[pkg := ∅]> (sys_modules w)) w.

Definition unregister_pkg (w : World) : World :=
  set_sys_modules (delete pkg (sys_modules w)) w.

Definition import_pyhdk : M unit := fun w =>
  match sys_modules w !! pkg with
  | Some _ => (Ok tt, w)
  | None =>
    match pyhdk_body (register_pkg w) with
    | (Ok a, w') => (Ok a, w')
    | (Raise e, w') => (Raise e, unregister_pkg w')
    end
  end.

(** [importlib.reload(pyhdk)]: the body runs again in the dictionary of the
    registered module, which stays registered whatever happens. *)
Definition reload_pyhdk : M unit := fun w =>
  match sys_modules w !! pkg with
  | Some _ => pyhdk_body w
  | None => (Raise (ImportError "module pyhdk not in sys.modules"), w)
  end.

(** ** The body from its first line

    [pyhdk_body] starts at line 13, where the work of the initializer starts.
    Before it the module imports [sys] and [os] (lines 6-7), two modules
    without parent package that a running interpreter has registered already.
    [pyhdk_module] is the body with these two statements in front, for the
    properties that speak of every import or of the whole log. *)

(** [import name], for a module without parent package. *)
Definition import_top (name : string) : M unit := import_as name name.

(** Lines 6-7. *)
Definition std_imports : M unit :=
  import_top "sys" ;;
  import_top "os".

(** Lines 6-34. *)
Definition pyhdk_module : M unit :=
  std_imports ;;
  pyhdk_body.

Definition import_pyhdk_module : M unit := fun w =>
  match sys_modules w !! pkg with
  | Some _ => (Ok tt, w)
  | None =>
    match pyhdk_module (register_pkg w) with
    | (Ok a, w') => (Ok a, w')
    | (Raise e, w') => (Raise e, unregister_pkg w')
    end
  end.

End Initializer.

(** ** A sample engine, for running the model *)

Definition demo_join (p : string) (ps : list string) : string :=
  foldl (fun acc q => acc +:+ "\" +:+ q) p ps.

Definition demo_load (name : string) : Result (gmap string PyValue) :=
  if decide (name = "pyhdk._common") then
    Ok (<["TypeInfo" := VForeign "TypeInfo"]>
        (<["buildConfig" := VForeign "buildConfig"]>
        (<["initLogger" := VForeign "initLogger"]> ∅)))
  else if decide (name = "pyhdk._execute") then
    Ok (<["Executor" := VForeign "Executor"]> ∅)
  else if decide (name = "pyhdk.sql") then
    Ok (<["Calcite" := VForeign "Calcite"]> ∅)
  else if decide (name = "pyhdk.storage") then
    Ok (<["ArrowStorage" := VForeign "ArrowStorage"]> ∅)
  else if decide (name = "pyhdk.hdk") then
    Ok (<["init" := VForeign "init"]> ∅)
  else if decide (name = "pyhdk._builder") then
    Ok (<["QueryBuilder" := VForeign "QueryBuilder"]> ∅)
  else if decide (name = "pyhdk.version") then
    Ok (<["Version" := VForeign "Version"]> ∅)
  else Raise (ImportError name).

Definition demo_call (obj : PyValue) (meth : string) : Result PyValue :=
  match obj with
  | VForeign "Version" =>
    if decide (meth = "str") then Ok (VStr "0.9.0") else Raise (EngineError meth)
  | _ => Raise (EngineError meth)
  end.

Definition demo_host : Host := mkHost demo_join demo_load demo_call (fun _ => true).

Definition fresh_world (plat : string) (flags : Z) (env : gmap string string) : World :=
  mkWorld plat flags env [] ∅ [].

(** An engine whose SQL module cannot be loaded. *)
Definition broken_sql_host : Host :=
  mkHost demo_join
    (fun name =>
       if decide (name = "pyhdk.sql")
       then Raise (ImportError "libjvm.so: cannot open shared object file")
       else demo_load name)
    demo_call (fun _ => true).

(** A system on which the Java server directory does not exist. *)
Definition no_jdk_host : Host := mkHost demo_join demo_load demo_call (fun _ => false).


(** A process as the interpreter starts it, with [sys] and [os] registered. *)
Definition running_world (plat : string) (flags : Z) (env : gmap string string)
    : World :=
  mkWorld plat flags env [] (<["sys" := ∅]> (<["os" := ∅]> ∅)) [].

(** A process in which the import system has made the package and set its
    name, and is about to run its body. *)
Definition named_package_world (plat : string) (flags : Z)
    (env : gmap string string) : World :=
  mkWorld plat flags env []
    (<[pkg := <["__name__" := VStr "pyhdk"]> ∅]> (<["sys" := ∅]> (<["os" := ∅]> ∅))) [].

(** * The end-to-end scenario of [tests/test_pyhdk_sql.py] *)

Module Engine.

(** Modelled from the spec: the engine behind the entry points is native code
    that is not part of the sources; only its caller, the test, is.  Of the
    "columnar storage manager" the model keeps a storage that holds named
    tables column by column, each column a name and its integer values. *)
Definition Table : Type := list (string * list Z).

(** Modelled from the spec: what the "configuration builder" returns; the
    scenario only passes it around. *)
Inductive Config : Type := DefaultConfig.

Record ArrowStorage : Type := mkStorage {
  schema_id : Z;
  tables : gmap string Table
}.

(** Modelled from the spec: the "table-import options". *)
Record TableOptions : Type := mkTableOptions { fragment_size : Z }.

(** Modelled from the spec: the "data-provider registry", the schema ids of
    the storages registered with it. *)
Record DataMgr : Type := mkDataMgr {
  dm_config : Config;
  providers : list Z
}.

Record Calcite : Type := mkCalcite { calcite_schema : Z; calcite_config : Config }.

Record Executor : Type := mkExecutor { exec_data_mgr : DataMgr; exec_config : Config }.

(** Modelled from the spec: the relational algebra that the "SQL parser" hands
    to the executor, for queries over one table: all rows, the rows where a
    column is below a bound, and the number of rows. *)
Inductive RelAlg : Type :=
| Scan (table : string)
| Filter (col : string) (bound : Z) (input : RelAlg)
| CountStar (input : RelAlg).

Record RelAlgExecutor : Type := mkRelAlgExecutor {
  rae_executor : Executor;
  rae_storage : ArrowStorage;
  rae_data_mgr : DataMgr;
  rae_ra : RelAlg
}.

(** Modelled from the spec: the engine's modules as the wrapper imports them.
    Each entry point is an object of the engine, known to the wrapper by
    nothing but its identity. *)
Definition entry (name : string) : PyValue := VForeign name.

Definition entries (names : list string) : gmap string PyValue :=
  list_to_map ((fun n => (n, entry n)) <$> names).

Definition load (name : string) : Result (gmap string PyValue) :=
  if decide (name = "pyhdk._common") then
    Ok (entries ["TypeInfo"; "buildConfig"; "initLogger"])
  else if decide (name = "pyhdk._execute") then Ok (entries ["Executor"])
  else if decide (name = "pyhdk.sql") then Ok (entries ["Calcite"; "RelAlgExecutor"])
  else if decide (name = "pyhdk.storage") then
    Ok (entries ["ArrowStorage"; "DataMgr"; "TableOptions"])
  else if decide (name = "pyhdk.hdk") then Ok (entries ["init"])
  else if decide (name = "pyhdk._builder") then Ok (entries ["QueryBuilder"])
  else if decide (name = "pyhdk.version") then Ok (entries ["Version"])
  else Raise (ImportError name).

Definition call (obj : PyValue) (meth : string) : Result PyValue :=
  if decide (obj = entry "Version" /\ meth = "str") then Ok (VStr "0.9.0")
  else Raise (EngineError meth).

Definition host : Host := mkHost demo_join load call (fun _ => true).

(** Calling the value [f] that a name of the wrapper resolved to: it must be
    the engine's entry point [name], and the call then yields [result]. *)
Definition call_entry {A} (name : string) (f : PyValue) (result : A) : Result A :=
  if decide (f = entry name) then Ok result
  else Raise (TypeError "object is not callable").

Definition buildConfig : Config := DefaultConfig.

Definition registerDataProvider (s : ArrowStorage) (dm : DataMgr) : DataMgr :=
  mkDataMgr (dm_config dm) (providers dm ++ [schema_id s]).

(** Modelled from the spec: the table import of the storage.  A table name
    can be imported once; a second import under the same name raises, as
    [test_storage_exceptions] expects. *)
Definition importArrowTable (at_ : Table) (name : string) (opt : TableOptions)
    (s : ArrowStorage) : Result ArrowStorage :=
  match tables s !! name with
  | Some _ => Raise (RuntimeError ("table already exists: " +:+ name))
  | None => Ok (mkStorage (schema_id s) (<[name := at_]> (tables s)))
  end.

(** The words of a query: blanks separate, a semicolon is a word of its own. *)
Fixpoint words_aux (cur : string) (s : string) : list string :=
  let flush := if decide (cur = "") then [] else [cur] in
  match s with
  | EmptyString => flush
  | String c s' =>
    if Ascii.eqb c " "%char then flush ++ words_aux "" s'
    else if Ascii.eqb c ";"%char then flush ++ [";"] ++ words_aux "" s'
    else words_aux (cur +:+ String c EmptyString) s'
  end.

Definition words (s : string) : list string := words_aux "" s.

(** A decimal number, with an optional minus sign. *)
Fixpoint digits (s : string) (acc : Z) : option Z :=
  match s with
  | EmptyString => Some acc
  | String c s' =>
    let n := Z.of_N (N_of_ascii c) in
    if ((48 <=? n) && (n <=? 57))%Z then digits s' (10 * acc + (n - 48)) else None
  end.

Definition number (s : string) : option Z :=
  match s with
  | EmptyString => None
  | String "-"%char (String c s') => Z.opp <$> digits (String c s') 0
  | _ => digits s 0
  end.

(** Modelled from the spec: the SQL front-end, for the shapes of query that
    the tests use: "SELECT * FROM t" and "SELECT COUNT(*) FROM t", each with
    or without a condition "WHERE c < n". *)
Definition projection (proj : string) (input : RelAlg) : option RelAlg :=
  if decide (proj = "*") then Some input
  else if decide (proj = "COUNT(*)") then Some (CountStar input)
  else None.

Definition parse (ws : list string) : option RelAlg :=
  match ws with
  | ["SELECT"; proj; "FROM"; t] | ["SELECT"; proj; "FROM"; t; ";"] =>
    projection proj (Scan t)
  | ["SELECT"; proj; "FROM"; t; "WHERE"; c; "<"; n]
  | ["SELECT"; proj; "FROM"; t; "WHERE"; c; "<"; n; ";"] =>
    match number n with
    | Some bound => projection proj (Filter c bound (Scan t))
    | None => None
    end
  | _ => None
  end.

Fixpoint scanned (ra : RelAlg) : string :=
  match ra with
  | Scan t => t
  | Filter _ _ r | CountStar r => scanned r
  end.

(** Modelled from the spec: [Calcite.process], which compiles a query to
    relational algebra.  The query must parse and its table must exist. *)
Definition process (s : ArrowStorage) (c : Calcite) (sql : string) : Result RelAlg :=
  match parse (words sql) with
  | None => Raise (RuntimeError ("cannot parse: " +:+ sql))
  | Some ra =>
    match tables s !! scanned ra with
    | Some _ => Ok ra
    | None => Raise (RuntimeError ("table not found: " +:+ scanned ra))
    end
  end.

Definition num_rows (t : Table) : nat :=
  match t with
  | [] => 0%nat
  | (_, vals) :: _ => length vals
  end.

(** [df[col].tolist()] *)
Fixpoint column (df : Table) (col : string) : option (list Z) :=
  match df with
  | [] => None
  | (c, vals) :: rest => if decide (c = col) then Some vals else column rest col
  end.

(** The values at the rows that [mask] keeps. *)
Fixpoint keep (mask : list bool) (vals : list Z) : list Z :=
  match mask, vals with
  | b :: mask', v :: vals' => if b then v :: keep mask' vals' else keep mask' vals'
  | _, _ => []
  end.

(** Modelled from the spec: the result of a relational-algebra tree.  A
    condition keeps the rows whose value in the column is below the bound.
    The aggregate "COUNT(*)" yields one row with one column, which the
    front-end names [EXPR$0], holding the number of rows of its input. *)
Fixpoint eval (s : ArrowStorage) (ra : RelAlg) : option Table :=
  match ra with
  | Scan t => tables s !! t
  | Filter c bound r =>
    match eval s r with
    | Some t =>
      match column t c with
      | Some vals =>
        let mask := (fun v => (v <? bound)%Z) <$> vals in
        Some ((fun cv => (cv.1, keep mask cv.2)) <$> t)
      | None => None
      end
    | None => None
    end
  | CountStar r =>
    match eval s r with
    | Some t => Some [("EXPR$0", [Z.of_nat (num_rows t)])]
    | None => None
    end
  end.

(** Modelled from the spec: [RelAlgExecutor.execute()] without options.  The
    storage must be a registered data provider.  The option [just_explain],
    which returns the code the engine generates, is beyond the model. *)
Definition execute (x : RelAlgExecutor) : Result Table :=
  if decide (schema_id (rae_storage x) ∈ providers (rae_data_mgr x)) then
    match eval (rae_storage x) (rae_ra x) with
    | Some t => Ok t
    | None => Raise (RuntimeError "cannot execute the query")
    end
  else Raise (RuntimeError "storage is not registered").

End Engine.

Module TestSql.

Import Engine.

(** The class attributes that [setup_class] sets.  [calcite] and [data_mgr]
    hold the storage by reference; the model passes the current storage to
    them at each use. *)
Record Fixture : Type := mkFixture {
  config : Config;
  storage : ArrowStorage;
  data_mgr : DataMgr;
  calcite : Calcite;
  executor : Executor
}.

(** [pandas.DataFrame({"a": [1, 2, 3], "b": [10, 20, 30]})] as an Arrow table. *)
Definition test_table : Table := [("a", [1; 2; 3]); ("b", [10; 20; 30])].

(** The package as the test sees it after its [import pyhdk]. *)
Definition pyhdk : PyValue := VModule pkg.

(** Lines 18-32, in the state [w] that [import pyhdk] left, for the table
    [at_] (the test's is [test_table]).  Every engine object is reached
    through a name of the package. *)
Definition setup_class (w : World) (at_ : Table) : Result Fixture :=
  f <~ getattr w pyhdk "buildConfig" ;;
  config <~ call_entry "buildConfig" f buildConfig ;;
  m <~ getattr w pyhdk "storage" ;;
  f <~ getattr w m "ArrowStorage" ;;
  storage <~ call_entry "ArrowStorage" f (mkStorage 1 ∅) ;;
  m <~ getattr w pyhdk "storage" ;;
  f <~ getattr w m "DataMgr" ;;
  data_mgr <~ call_entry "DataMgr" f (mkDataMgr config []) ;;
  let data_mgr := registerDataProvider storage data_mgr in
  m <~ getattr w pyhdk "sql" ;;
  f <~ getattr w m "Calcite" ;;
  calcite <~ call_entry "Calcite" f (mkCalcite (schema_id storage) config) ;;
  f <~ getattr w pyhdk "Executor" ;;
  executor <~ call_entry "Executor" f (mkExecutor data_mgr config) ;;
  m <~ getattr w pyhdk "storage" ;;
  f <~ getattr w m "TableOptions" ;;
  opt <~ call_entry "TableOptions" f (mkTableOptions 2) ;;
  storage <~ importArrowTable at_ "test" opt storage ;;
  Ok (mkFixture config storage data_mgr calcite executor).

(** Lines 41-46, without options. *)
Definition execute_sql (w : World) (cls : Fixture) (sql : string) : Result Table :=
  ra <~ process (storage cls) (calcite cls) sql ;;
  m <~ getattr w pyhdk "sql" ;;
  f <~ getattr w m "RelAlgExecutor" ;;
  rel_alg_executor <~
    call_entry "RelAlgExecutor" f
      (mkRelAlgExecutor (executor cls) (storage cls) (data_mgr cls) ra) ;;
  execute rel_alg_executor.

(** [df.shape] *)
Definition shape (df : Table) : nat * nat := (num_rows df, length df).

(** Lines 52-56: the two assertions of [test_simple_count]. *)
Definition test_simple_count (w : World) (cls : Fixture) : Result bool :=
  df <~ execute_sql w cls "SELECT COUNT(*) FROM test;" ;;
  Ok (bool_decide (shape df = (1%nat, 1%nat)) &&
      bool_decide (head <$> column df "EXPR$0" = Some (Some 3))).

(** Lines 58-63. *)
Definition test_simple_projection (w : World) (cls : Fixture) : Result bool :=
  df <~ execute_sql w cls "SELECT * FROM test;" ;;
  Ok (bool_decide (shape df = (3%nat, 2%nat)) &&
      bool_decide (column df "a" = Some [1; 2; 3]) &&
      bool_decide (column df "b" = Some [10; 20; 30])).

(** Lines 65-69. *)
Definition test_simple_filter (w : World) (cls : Fixture) : Result bool :=
  df <~ execute_sql w cls "SELECT COUNT(*) FROM test WHERE a < 3;" ;;
  Ok (bool_decide (shape df = (1%nat, 1%nat)) &&
      bool_decide (head <$> column df "EXPR$0" = Some (Some 2))).

(** Lines 76-83: importing a second table as [test] must raise a
    [RuntimeError]. *)
Definition test_storage_exceptions (w : World) (cls : Fixture) : Result bool :=
  let at_ : Table := [("c", [1; 2; 3]); ("d", [10; 20; 30])] in
  m <~ getattr w pyhdk "storage" ;;
  f <~ getattr w m "TableOptions" ;;
  opt <~ call_entry "TableOptions" f (mkTableOptions 2) ;;
  match importArrowTable at_ "test" opt (storage cls) with
  | Raise (RuntimeError _) => Ok true
  | _ => Ok false
  end.

End TestSql.

(** * Vocabulary of the statements *)

(** A relation that holds between the state before and after every run. *)
Definition relates {A} (R : relation World) (m : M A) : Prop :=
  forall w, R w (snd (m w)).

(** An import or load event logged under the flag mask [flags]. *)
Definition import_event_at (flags : Z) (e : Event) : Prop :=
  match e with
  | EvImport _ f | EvLoad _ f => f = flags
  | _ => False
  end.

(** [frame F w w'] says what a run of import statements from [w] to [w'] may
    have done: it logged import events only, all under the flag mask of [w];
    it left the platform, the mask, the environment and the DLL search path
    alone; the modules registered in [w] other than the package are the same
    in [w']; the package stays registered; and of the package's globals only
    the names in [F] may have changed. *)
Record frame (F : list string) (w w' : World) : Prop := mkFrame {
  frame_platform : platform w' = platform w;
  frame_flags : dlopenflags w' = dlopenflags w;
  frame_environ : environ w' = environ w;
  frame_dll_dirs : dll_dirs w' = dll_dirs w;
  frame_trace :
    exists t, trace w' = trace w ++ t /\ Forall (import_event_at (dlopenflags w)) t;
  frame_modules :
    forall k d, k ≠ pkg -> sys_modules w !! k = Some d -> sys_modules w' !! k = Some d;
  frame_pkg : is_Some (sys_modules w !! pkg) -> is_Some (sys_modules w' !! pkg);
  frame_globals : forall n, n ∉ F -> globals w' !! n = globals w !! n
}.

(** Every name the import block may bind in the package: the names it
    imports and the last components of the modules it loads. *)
Definition block_names : list string :=
  ["_common"; "TypeInfo"; "buildConfig"; "initLogger"; "_execute"; "Executor";
   "sql"; "storage"; "hdk"; "init"; "_builder"; "QueryBuilder"; "version";
   "Version"].

(** The calls of the platform branch and of the restoring step. *)
Definition platform_event (e : Event) : bool :=
  match e with
  | EvGetFlags | EvSetFlags _ | EvEnvRead _ | EvAddDll _ => true
  | EvImport _ _ | EvLoad _ _ | EvCall _ _ => false
  end.

(** [quiet w w']: from [w] to [w'] the mask, the environment and the DLL
    search path were neither changed nor, as far as the log shows, read. *)
Record quiet (w w' : World) : Prop := mkQuiet {
  quiet_platform : platform w' = platform w;
  quiet_flags : dlopenflags w' = dlopenflags w;
  quiet_environ : environ w' = environ w;
  quiet_dll_dirs : dll_dirs w' = dll_dirs w;
  quiet_trace :
    exists t, trace w' = trace w ++ t /\ Forall (fun e => platform_event e = false) t
}.

(** The log only grows. *)
Definition extends (w w' : World) : Prop := exists t, trace w' = trace w ++ t.

(** Platform and environment are never changed. *)
Definition stable (w w' : World) : Prop :=
  platform w' = platform w /\ environ w' = environ w.

(** [exports_attr n m a w]: the package global [n] is the very value that the
    registered module [m] holds as its attribute [a]. *)
Definition exports_attr (n m a : string) (w : World) : Prop :=
  exists d v, sys_modules w !! m = Some d /\ d !! a = Some v /\
              globals w !! n = Some v.

(** [exports_module n m w]: the package global [n] is the registered module
    [m] itself. *)
Definition exports_module (n m : string) (w : World) : Prop :=
  is_Some (sys_modules w !! m) /\ globals w !! n = Some (VModule m).

(** The entry points of lines 23-29: the name bound in the package, the
    engine module it comes from, and the attribute of that module ([None]
    when the name is bound to the module itself). *)
Definition entry_points : list (string * string * option string) :=
  [("TypeInfo", "pyhdk._common", Some "TypeInfo");
   ("buildConfig", "pyhdk._common", Some "buildConfig");
   ("initLogger", "pyhdk._common", Some "initLogger");
   ("Executor", "pyhdk._execute", Some "Executor");
   ("sql", "pyhdk.sql", None);
   ("storage", "pyhdk.storage", None);
   ("init", "pyhdk.hdk", Some "init");
   ("QueryBuilder", "pyhdk._builder", Some "QueryBuilder");
   ("Version", "pyhdk.version", Some "Version")].

Definition exported (w : World) (ep : string * string * option string) : Prop :=
  match ep with
  | (n, m, Some a) => exports_attr n m a w
  | (n, m, None) => exports_module n m w
  end.

(** What a run of the body that succeeded leaves behind: the package is
    registered; on linux [prev] holds the mask; on win32 [JAVA_HOME] is set
    and its server directory is one the system accepts;
    the entry points are exported; [__version__] is what [Version.str()]
    returns. *)
Record initialised (h : Host) (w : World) : Prop := mkInitialised {
  init_registered : is_Some (sys_modules w !! pkg);
  init_prev :
    platform w = "linux" -> globals w !! "prev" = Some (VInt (dlopenflags w));
  init_java :
    platform w = "win32" ->
    exists java_home,
      environ w !! "JAVA_HOME" = Some java_home /\
      dll_directory_ok h (path_join h java_home ["bin"; "server"]) = true;
  init_exports : Forall (exported w) entry_points;
  init_version :
    exists version s,
      globals w !! "Version" = Some version /\
      call_method h version "str" = Ok s /\
      globals w !! "__version__" = Some s
}.

(** ** Vocabulary of the further properties *)

(** The engine modules in the order of lines 23-29. *)
Definition engine_modules : list string :=
  ["pyhdk._common"; "pyhdk._execute"; "pyhdk.sql"; "pyhdk.storage"; "pyhdk.hdk";
   "pyhdk._builder"; "pyhdk.version"].

(** Every import of the module in the order of the source: lines 6-7 and
    23-29. *)
Definition source_imports : list string := "sys" :: "os" :: engine_modules.

(** The modules whose import statement a log shows, oldest first. *)
Fixpoint imports_of (t : list Event) : list string :=
  match t with
  | [] => []
  | EvImport name _ :: t' => name :: imports_of t'
  | _ :: t' => imports_of t'
  end.

(** The modules whose code a log shows to have run, oldest first. *)
Fixpoint loads_of (t : list Event) : list string :=
  match t with
  | [] => []
  | EvLoad name _ :: t' => name :: loads_of t'
  | _ :: t' => loads_of t'
  end.

(** [import_log l w r w']: a run of import statements for the modules [l],
    from [w] with result [r] to [w'], went through the statements in order up
    to the first that raised, loaded no module that was registered in [w] and
    none twice over. *)
Definition import_log (l : list string) (w : World) (r : Result unit) (w' : World)
    : Prop :=
  exists t,
    trace w' = trace w ++ t /\
    imports_of t `prefix_of` l /\
    (r = Ok tt -> imports_of t = l) /\
    loads_of t `sublist_of` imports_of t /\
    Forall (fun name => sys_modules w !! name = None) (loads_of t).

Definition logs (l : list string) (m : M unit) : Prop :=
  forall w r w', m w = (r, w') -> import_log l w r w'.

(** [no_imports w w']: from [w] to [w'] the log grew by events that are
    neither imports nor loads, and no module other than the package was
    registered, dropped or changed. *)
Definition no_imports (w w' : World) : Prop :=
  (exists t, trace w' = trace w ++ t /\ imports_of t = [] /\ loads_of t = []) /\
  forall k, k ≠ pkg -> sys_modules w' !! k = sys_modules w !! k.

(** The names that lines 23-29 import from engine modules. *)
Definition imported_names : list string :=
  ["TypeInfo"; "buildConfig"; "initLogger"; "Executor"; "init"; "QueryBuilder";
   "Version"].

(** An engine whose [Version.str()] raises. *)
Definition broken_version_host : Host :=
  mkHost demo_join demo_load (fun _ _ => Raise (EngineError "str")) (fun _ => true).

(** The calls of the win32 branch. *)
Definition java_event (e : Event) : bool :=
  match e with
  | EvEnvRead _ | EvAddDll _ => true
  | _ => false
  end.

(** [no_java w w']: from [w] to [w'] the environment and the DLL search path
    were left alone and, as far as the log shows, not consulted. *)
Definition no_java (w w' : World) : Prop :=
  platform w' = platform w /\ environ w' = environ w /\ dll_dirs w' = dll_dirs w /\
  exists t, trace w' = trace w ++ t /\ Forall (fun e => java_event e = false) t.

(** What lines 23-29 need of each engine module: the names imported from
    it. *)
Definition required_attrs : list (string * list string) :=
  [("pyhdk._common", ["TypeInfo"; "buildConfig"; "initLogger"]);
   ("pyhdk._execute", ["Executor"]);
   ("pyhdk.sql", []);
   ("pyhdk.storage", []);
   ("pyhdk.hdk", ["init"]);
   ("pyhdk._builder", ["QueryBuilder"]);
   ("pyhdk.version", ["Version"])].

(** An engine the wrapper can be initialised over: each engine module loads
    and has the names imported from it, and [Version.str()] returns. *)
Definition complete_engine (h : Host) : Prop :=
  Forall (fun '(name, attrs) =>
            exists d, load_module h name = Ok d /\
                      Forall (fun a => is_Some (d !! a)) attrs)
         required_attrs /\
  forall d version,
    load_module h "pyhdk.version" = Ok d -> d !! "Version" = Some version ->
    exists s, call_method h version "str" = Ok s.

(** ** Vocabulary of the scenario *)

(** [loads_from h w w']: from [w] to [w'] a module other than the package is
    either as it was or, having not been registered, now registered with the
    dictionary that its code returned. *)
Definition loads_from (h : Host) (w w' : World) : Prop :=
  forall name, name ≠ pkg ->
    sys_modules w' !! name = sys_modules w !! name \/
    (sys_modules w !! name = None /\
     exists d, load_module h name = Ok d /\ sys_modules w' !! name = Some d).

(** Every engine module is registered with the dictionary its code returned. *)
Definition engine_loaded (h : Host) (w : World) : Prop :=
  Forall (fun name => exists d, load_module h name = Ok d /\
                                sys_modules w !! name = Some d)
         engine_modules.

(** The class attributes after [setup_class], for the table [at_]. *)
Definition fixture_of (at_ : Engine.Table) : TestSql.Fixture :=
  let dm := Engine.mkDataMgr Engine.DefaultConfig [1] in
  TestSql.mkFixture Engine.DefaultConfig
    (Engine.mkStorage 1 (<["test" := at_]> ∅)) dm
    (Engine.mkCalcite 1 Engine.DefaultConfig)
    (Engine.mkExecutor dm Engine.DefaultConfig).

(** * Verification *)

(** ** Running computations *)

Lemma bind_inv {A B} (m : M A) (f : A -> M B) w r w' :
  bind m f w = (r, w') ->
  (exists e, m w = (Raise e, w') /\ r = Raise e) \/
  (exists a w1, m w = (Ok a, w1) /\ f a w1 = (r, w')).
Proof.
  unfold bind. destruct (m w) as [[a|e] w1]; intros H.
  - right. eauto.
  - left. inversion H; subst. eauto.
Qed.

Lemma bind_ok_inv {A B} (m : M A) (f : A -> M B) w b w' :
  bind m f w = (Ok b, w') ->
  exists a w1, m w = (Ok a, w1) /\ f a w1 = (Ok b, w').
Proof.
  intros H. apply bind_inv in H as [(e & _ & He)|H]; [discriminate|done].
Qed.

Lemma bind_ok {A B} (m : M A) (f : A -> M B) w a w1 :
  m w = (Ok a, w1) -> bind m f w = f a w1.
Proof. unfold bind. by intros ->. Qed.

Lemma bind_raise {A B} (m : M A) (f : A -> M B) w e w1 :
  m w = (Raise e, w1) -> bind m f w = (Raise e, w1).
Proof. unfold bind. by intros ->. Qed.

Lemma relates_run {A} (R : relation World) (m : M A) w r w' :
  relates R m -> m w = (r, w') -> R w w'.
Proof. intros HR Hm. specialize (HR w). by rewrite Hm in HR. Qed.

Lemma relates_ret {A} (R : relation World) `{!Reflexive R} (a : A) :
  relates R (ret a).
Proof. intros w. simpl. reflexivity. Qed.

Lemma relates_raise {A} (R : relation World) `{!Reflexive R} e :
  relates R (@raise A e).
Proof. intros w. simpl. reflexivity. Qed.

Lemma relates_bind {A B} (R : relation World) `{!Transitive R}
    (m : M A) (f : A -> M B) :
  relates R m -> (forall a, relates R (f a)) -> relates R (bind m f).
Proof.
  intros Hm Hf w. unfold bind.
  specialize (Hm w). destruct (m w) as [[a|e] w1]; simpl in *; [|done].
  etransitivity; [exact Hm|apply Hf].
Qed.

Lemma relates_weaken {A} (R R' : relation World) (m : M A) :
  (forall w w', R w w' -> R' w w') -> relates R m -> relates R' m.
Proof. intros HRR Hm w. apply HRR, Hm. Qed.

(** ** Module dictionaries *)

Lemma module_dict_setattr_eq m n v w :
  module_dict m (module_setattr m n v w) = <[n := v]> (module_dict m w).
Proof. unfold module_dict at 1. simpl. by rewrite lookup_insert_eq. Qed.

Lemma module_dict_setattr_ne m m' n v w :
  m ≠ m' -> module_dict m' (module_setattr m n v w) = module_dict m' w.
Proof. intros Hne. unfold module_dict. simpl. by rewrite lookup_insert_ne. Qed.

Lemma sys_modules_setattr_ne m m' n v w :
  m ≠ m' -> sys_modules (module_setattr m n v w) !! m' = sys_modules w !! m'.
Proof. intros Hne. simpl. by rewrite lookup_insert_ne. Qed.

Lemma sys_modules_setattr_is_Some m m' n v w :
  is_Some (sys_modules w !! m') ->
  is_Some (sys_modules (module_setattr m n v w) !! m').
Proof.
  intros Hs. simpl. destruct (decide (m = m')) as [->|Hne].
  - rewrite lookup_insert_eq. eauto.
  - by rewrite lookup_insert_ne.
Qed.

Lemma globals_store n v w :
  globals (module_setattr pkg n v w) = <[n := v]> (globals w).
Proof. apply module_dict_setattr_eq. Qed.

(** ** The frame of the import statements *)

#[global] Instance frame_refl F : Reflexive (frame F).
Proof.
  intros w. split; try done. exists []. by rewrite app_nil_r.
Qed.

#[global] Instance frame_trans F : Transitive (frame F).
Proof.
  intros w1 w2 w3 [Hp1 Hf1 He1 Hd1 (t1 & Ht1 & Hall1) Hm1 Hk1 Hg1]
                  [Hp2 Hf2 He2 Hd2 (t2 & Ht2 & Hall2) Hm2 Hk2 Hg2].
  split; try congruence; eauto.
  - exists (t1 ++ t2). split.
    + by rewrite Ht2, Ht1, app_assoc.
    + rewrite Hf1 in Hall2. by apply Forall_app.
  - intros n Hn. by rewrite Hg2, Hg1.
Qed.

(** Inclusion and membership goals over explicit name lists. *)
Ltac names_solver := solve [
  unfold not; set_unfold; intros; intuition (subst; first [congruence | tauto])].

(** The same for goals without variables, by evaluation. *)
Ltac closed_names := solve [apply (bool_decide_unpack _); vm_compute; exact I].

Lemma frame_mono F F' w w' : F ⊆ F' -> frame F w w' -> frame F' w w'.
Proof.
  intros Hsub [? ? ? ? ? ? ? Hg]. split; try done.
  intros n Hn. apply Hg. intros Hin. apply Hn, Hsub, Hin.
Qed.

Lemma store_global_frame n v : relates (frame [n]) (store_global n v).
Proof.
  intros w. simpl. split; simpl; try done.
  - exists []. by rewrite app_nil_r.
  - intros k d Hk Hd. by rewrite lookup_insert_ne.
  - intros _. rewrite lookup_insert_eq. eauto.
  - intros k Hk. fold (module_setattr pkg n v w). rewrite globals_store.
    apply lookup_insert_ne. names_solver.
Qed.

Section InitializerFacts.

Context (h : Host).

Lemma import_module_frame name child :
  rsplit_dot name = (Some pkg, child) -> name ≠ pkg ->
  relates (frame [child]) (import_module h name).
Proof.
  intros Hsplit Hne w. unfold import_module. simpl.
  destruct (sys_modules w !! name) as [d|] eqn:Hcached; simpl.
  { split; simpl; try done.
    exists [EvImport name (dlopenflags w)]. split; [done|].
    by repeat constructor. }
  destruct (load_module h name) as [d|e]; simpl.
  - rewrite Hsplit. split; simpl; try done.
    + exists [EvImport name (dlopenflags w); EvLoad name (dlopenflags w)].
      split; [by rewrite <- app_assoc|]. by repeat constructor.
    + intros k d' Hk Hd'. rewrite lookup_insert_ne by done.
      rewrite lookup_insert_ne; [done|]. intros ->. congruence.
    + intros _. rewrite lookup_insert_eq. eauto.
    + intros n Hn. unfold globals, module_dict. simpl.
      rewrite lookup_insert_eq. simpl.
      unfold module_dict. simpl.
      rewrite (lookup_insert_ne (sys_modules w)) by done.
      apply lookup_insert_ne. names_solver.
  - split; simpl; try done.
    exists [EvImport name (dlopenflags w); EvLoad name (dlopenflags w)].
    split; [by rewrite <- app_assoc|]. by repeat constructor.
Qed.

Lemma import_from_attr_frame name n F : relates (frame F) (import_from_attr name n).
Proof.
  intros w. unfold import_from_attr.
  destruct (module_dict name w !! n); simpl; reflexivity.
Qed.

Lemma bind_names_frame name names : relates (frame names) (bind_names name names).
Proof.
  induction names as [|n rest IH]; simpl.
  - apply relates_ret, _.
  - apply relates_bind; [apply _|apply import_from_attr_frame|]. intros v.
    apply relates_bind; [apply _| |].
    + eapply relates_weaken; [|apply store_global_frame].
      intros w w'. apply frame_mono. names_solver.
    + intros _. eapply relates_weaken; [|apply IH].
      intros w w'. apply frame_mono. names_solver.
Qed.

Lemma import_from_frame name child names :
  rsplit_dot name = (Some pkg, child) -> name ≠ pkg ->
  relates (frame (child :: names)) (import_from h name names).
Proof.
  intros Hsplit Hne. apply relates_bind; [apply _| |intros _].
  - eapply relates_weaken; [|by apply import_module_frame].
    intros w w'. apply frame_mono. names_solver.
  - eapply relates_weaken; [|apply bind_names_frame].
    intros w w'. apply frame_mono. names_solver.
Qed.

Lemma import_as_frame name child alias :
  rsplit_dot name = (Some pkg, child) -> name ≠ pkg ->
  relates (frame [child; alias]) (import_as h name alias).
Proof.
  intros Hsplit Hne. apply relates_bind; [apply _| |intros _].
  - eapply relates_weaken; [|by apply import_module_frame].
    intros w w'. apply frame_mono. names_solver.
  - eapply relates_weaken; [|apply store_global_frame].
    intros w w'. apply frame_mono. names_solver.
Qed.

Lemma relates_frame_mono {A} F F' (m : M A) :
  relates (frame F) m -> F ⊆ F' -> relates (frame F') m.
Proof.
  intros Hm Hsub. eapply relates_weaken; [|exact Hm].
  intros w w'. by apply frame_mono.
Qed.

Ltac block_stmt :=
  eapply relates_frame_mono;
  [first [apply import_from_frame | apply import_as_frame];
   [reflexivity|discriminate]
  |unfold block_names; names_solver].

Lemma import_block_frame : relates (frame block_names) (import_block h).
Proof.
  unfold import_block.
  repeat (apply relates_bind; [apply _|block_stmt|intros _]).
  block_stmt.
Qed.

(** ** The parts of the module body, run *)

Lemma platform_setup_linux w :
  platform w = "linux" ->
  platform_setup h w =
    (Ok tt,
     set_dlopenflags (Z.lor RTLD_LAZY RTLD_GLOBAL)
       (log (EvSetFlags (Z.lor RTLD_LAZY RTLD_GLOBAL))
          (module_setattr pkg "prev" (VInt (dlopenflags w)) (log EvGetFlags w)))).
Proof.
  intros Hp. unfold platform_setup, bind, sys_platform. rewrite Hp.
  by rewrite decide_True.
Qed.

Lemma platform_setup_win32_no_java w :
  platform w = "win32" -> environ w !! "JAVA_HOME" = None ->
  platform_setup h w =
    (Raise (RuntimeError
       "HDK engine requires JAVA_HOME environment variable to point to Java runtime location."),
     log (EvEnvRead "JAVA_HOME") w).
Proof.
  intros Hp Henv. unfold platform_setup, bind, sys_platform, environ_contains.
  rewrite Hp, decide_False, decide_True, Henv by done.
  rewrite bool_decide_false; [done|]. by intros [? ?].
Qed.

Lemma platform_setup_win32_java w java_home :
  platform w = "win32" -> environ w !! "JAVA_HOME" = Some java_home ->
  dll_directory_ok h (path_join h java_home ["bin"; "server"]) = true ->
  platform_setup h w =
    (Ok tt,
     let dir := path_join h java_home ["bin"; "server"] in
     let w1 := log (EvEnvRead "JAVA_HOME") (log (EvEnvRead "JAVA_HOME") w) in
     set_dll_dirs (dll_dirs w ++ [dir]) (log (EvAddDll dir) w1)).
Proof.
  intros Hp Henv Hok.
  unfold platform_setup, bind, sys_platform, environ_contains, environ_getitem,
    os_add_dll_directory.
  rewrite Hp, decide_False, decide_True, Henv by done.
  rewrite bool_decide_true by eauto. simpl. by rewrite Henv, Hok.
Qed.

Lemma platform_setup_win32_rejected w java_home :
  platform w = "win32" -> environ w !! "JAVA_HOME" = Some java_home ->
  dll_directory_ok h (path_join h java_home ["bin"; "server"]) = false ->
  platform_setup h w =
    (Raise (OSError (path_join h java_home ["bin"; "server"])),
     log (EvAddDll (path_join h java_home ["bin"; "server"]))
       (log (EvEnvRead "JAVA_HOME") (log (EvEnvRead "JAVA_HOME") w))).
Proof.
  intros Hp Henv Hno.
  unfold platform_setup, bind, sys_platform, environ_contains, environ_getitem,
    os_add_dll_directory.
  rewrite Hp, decide_False, decide_True, Henv by done.
  rewrite bool_decide_true by eauto. simpl. by rewrite Henv, Hno.
Qed.

Lemma platform_setup_other w :
  platform w ≠ "linux" -> platform w ≠ "win32" ->
  platform_setup h w = (Ok tt, w).
Proof.
  intros Hl Hw. unfold platform_setup, bind, sys_platform.
  by rewrite !decide_False.
Qed.

Lemma restore_flags_linux w prev :
  platform w = "linux" -> globals w !! "prev" = Some (VInt prev) ->
  restore_flags w = (Ok tt, set_dlopenflags prev (log (EvSetFlags prev) w)).
Proof.
  intros Hp Hprev. unfold restore_flags, bind, sys_platform, load_global.
  by rewrite Hp, decide_True, Hprev.
Qed.

Lemma restore_flags_not_linux w :
  platform w ≠ "linux" -> restore_flags w = (Ok tt, w).
Proof.
  intros Hp. unfold restore_flags, bind, sys_platform. by rewrite decide_False.
Qed.

Lemma set_version_inv w r w' :
  set_version h w = (r, w') ->
  (r = Raise (NameError "Version") /\ w' = w /\ globals w !! "Version" = None) \/
  exists version, globals w !! "Version" = Some version /\
    ((exists e, call_method h version "str" = Raise e /\ r = Raise e /\
                w' = log (EvCall version "str") w) \/
     (exists s, call_method h version "str" = Ok s /\ r = Ok tt /\
                w' = module_setattr pkg "__version__" s (log (EvCall version "str") w))).
Proof.
  unfold set_version, bind, load_global, call, store_global.
  destruct (globals w !! "Version") as [version|]; intros H.
  - right. exists version. split; [done|].
    destruct (call_method h version "str") as [s|e]; inversion H; subst; eauto.
  - left. by inversion H.
Qed.

(** The four parts of a run of the body that succeeds. *)
Lemma pyhdk_body_ok_inv w u w' :
  pyhdk_body h w = (Ok u, w') ->
  exists w0 w1 w2,
    platform_setup h w = (Ok tt, w0) /\
    import_block h w0 = (Ok tt, w1) /\
    restore_flags w1 = (Ok tt, w2) /\
    set_version h w2 = (Ok tt, w').
Proof.
  unfold pyhdk_body. intros H.
  apply bind_ok_inv in H as ([] & w0 & H0 & H).
  apply bind_ok_inv in H as ([] & w1 & H1 & H).
  apply bind_ok_inv in H as ([] & w2 & H2 & H).
  destruct u. eauto 10.
Qed.

(** On linux a body that runs to its end leaves the mask as it found it. *)
Lemma pyhdk_body_restores w u w' :
  platform w = "linux" ->
  pyhdk_body h w = (Ok u, w') ->
  dlopenflags w' = dlopenflags w.
Proof.
  intros Hp H.
  apply pyhdk_body_ok_inv in H as (w0 & w1 & w2 & H0 & H1 & H2 & H3).
  rewrite platform_setup_linux in H0 by done. inversion H0 as [Hw0]; clear H0.
  pose proof (relates_run _ _ _ _ _ import_block_frame H1) as Hfr.
  assert (globals w1 !! "prev" = Some (VInt (dlopenflags w))) as Hprev.
  { rewrite (frame_globals _ _ _ Hfr) by (unfold block_names; names_solver).
    rewrite <- Hw0. unfold globals, module_dict. simpl.
    rewrite lookup_insert_eq. apply lookup_insert_eq. }
  rewrite (restore_flags_linux _ (dlopenflags w)) in H2; [|
    rewrite (frame_platform _ _ _ Hfr); by rewrite <- Hw0 | done].
  inversion H2 as [Hw2]; clear H2.
  apply set_version_inv in H3 as [(? & _)|(v & _ & [(e & _ & ? & _)|(s & _ & _ & ->)])];
    try discriminate.
  by rewrite <- Hw2.
Qed.

End InitializerFacts.

(** ** Runs that do no platform setup *)

#[global] Instance quiet_refl : Reflexive quiet.
Proof. intros w. split; try done. exists []. by rewrite app_nil_r. Qed.

#[global] Instance quiet_trans : Transitive quiet.
Proof.
  intros w1 w2 w3 [Hp1 Hf1 He1 Hd1 (t1 & Ht1 & Hall1)]
                  [Hp2 Hf2 He2 Hd2 (t2 & Ht2 & Hall2)].
  split; try congruence.
  exists (t1 ++ t2). split; [by rewrite Ht2, Ht1, app_assoc|by apply Forall_app].
Qed.

Lemma frame_quiet F w w' : frame F w w' -> quiet w w'.
Proof.
  intros [Hp Hf He Hd (t & Ht & Hall) _ _ _]. split; try done.
  exists t. split; [done|]. eapply Forall_impl; [exact Hall|].
  intros [] Hev; done.
Qed.

Lemma quiet_unregister w w' : quiet w w' -> quiet w (unregister_pkg w').
Proof. by intros [? ? ? ? ?]. Qed.

Lemma quiet_register w w' : quiet (register_pkg w) w' -> quiet w w'.
Proof. by intros [? ? ? ? ?]. Qed.

Section QuietRuns.

Context (h : Host).

Lemma set_version_quiet : relates quiet (set_version h).
Proof.
  intros w. destruct (set_version h w) as [r w'] eqn:H. simpl.
  apply set_version_inv in H
    as [(_ & -> & _)|(v & _ & [(e & _ & _ & ->)|(s & _ & _ & ->)])];
    [reflexivity| |]; (split; try done; exists [EvCall v "str"]; by repeat constructor).
Qed.

(** Off linux everything after the platform branch is quiet. *)
Lemma after_setup_quiet w r w' :
  platform w ≠ "linux" ->
  (import_block h ;; restore_flags ;; set_version h) w = (r, w') ->
  quiet w w'.
Proof.
  intros Hp H.
  apply bind_inv in H as [(e & H & _)|([] & w1 & H1 & H)].
  { eapply frame_quiet, relates_run; [apply import_block_frame|exact H]. }
  assert (quiet w w1) as Hq1.
  { eapply frame_quiet, relates_run; [apply import_block_frame|exact H1]. }
  etransitivity; [exact Hq1|].
  assert (platform w1 ≠ "linux") as Hp1 by (by rewrite (quiet_platform _ _ Hq1)).
  apply bind_inv in H as [(e & H & _)|([] & w2 & H2 & H)];
    rewrite (restore_flags_not_linux _ Hp1) in *; [discriminate|].
  inversion H2; subst w2.
  eapply relates_run; [apply set_version_quiet|exact H].
Qed.

End QuietRuns.

(** ** What the package exports *)

Lemma exports_attr_frame F n m a w w' :
  frame F w w' -> n ∉ F -> m ≠ pkg ->
  exports_attr n m a w -> exports_attr n m a w'.
Proof.
  intros Hfr Hn Hm (d & v & Hd & Ha & Hg). exists d, v.
  split; [by apply (frame_modules _ _ _ Hfr)|]. split; [done|].
  by rewrite (frame_globals _ _ _ Hfr).
Qed.

Lemma exports_module_frame F n m w w' :
  frame F w w' -> n ∉ F -> m ≠ pkg ->
  exports_module n m w -> exports_module n m w'.
Proof.
  intros Hfr Hn Hm [[d Hd] Hg]. split.
  - exists d. by apply (frame_modules _ _ _ Hfr).
  - by rewrite (frame_globals _ _ _ Hfr).
Qed.

Lemma exported_frame F ep w w' :
  frame F w w' -> ep.1.1 ∉ F -> ep.1.2 ≠ pkg ->
  exported w ep -> exported w' ep.
Proof.
  destruct ep as [[n m] [a|]]; simpl.
  - apply exports_attr_frame.
  - apply exports_module_frame.
Qed.

(** A world that differs only outside [sys.modules], or by one more global
    of another name, exports the same. *)
Lemma exported_same_modules ep w w' :
  sys_modules w' = sys_modules w -> exported w ep -> exported w' ep.
Proof.
  intros Hsm. destruct ep as [[n m] [a|]]; simpl;
    unfold exports_attr, exports_module, globals, module_dict; by rewrite Hsm.
Qed.

Lemma exported_store ep n v w :
  ep.1.1 ≠ n -> ep.1.2 ≠ pkg ->
  exported w ep -> exported (module_setattr pkg n v w) ep.
Proof.
  intros Hn Hm.
  eapply exported_frame; [apply (store_global_frame n v w)|names_solver|done].
Qed.

Section Exports.

Context (h : Host).

Lemma import_module_ok name child w w' :
  rsplit_dot name = (Some pkg, child) -> name ≠ pkg ->
  import_module h name w = (Ok tt, w') ->
  is_Some (sys_modules w' !! name).
Proof.
  intros Hsplit Hne. unfold import_module. simpl.
  destruct (sys_modules w !! name) as [d|] eqn:Hcached.
  { intros H. inversion H. simpl. eauto. }
  destruct (load_module h name) as [d|e]; [|done].
  rewrite Hsplit. intros H. inversion H. simpl.
  rewrite lookup_insert_ne by done. rewrite lookup_insert_eq. eauto.
Qed.

Lemma bind_names_ok name names d w w' :
  name ≠ pkg -> sys_modules w !! name = Some d ->
  bind_names name names w = (Ok tt, w') ->
  sys_modules w' !! name = Some d /\
  forall n, n ∈ names -> is_Some (d !! n) /\ globals w' !! n = d !! n.
Proof.
  intros Hne. revert w. induction names as [|n0 rest IH]; intros w Hd H.
  { inversion H; subst. split; [done|]. intros n Hn. by apply elem_of_nil in Hn. }
  simpl in H. apply bind_ok_inv in H as (v & w1 & Hattr & H).
  apply bind_ok_inv in H as ([] & w2 & Hstore & H).
  unfold import_from_attr, module_dict in Hattr. rewrite Hd in Hattr. simpl in Hattr.
  destruct (d !! n0) as [v0|] eqn:Hn0; inversion Hattr; subst v0 w1.
  inversion Hstore as [Hw2].
  assert (sys_modules w2 !! name = Some d) as Hd2.
  { rewrite <- Hw2. by rewrite sys_modules_setattr_ne. }
  destruct (IH _ Hd2 H) as [Hd' Hrest]. split; [done|].
  intros n Hn. destruct (decide (n ∈ rest)) as [Hin|Hnin]; [by apply Hrest|].
  apply elem_of_cons in Hn as [->|?]; [|done].
  split; [by rewrite Hn0|].
  pose proof (relates_run _ _ _ _ _ (bind_names_frame name rest) H) as Hfr.
  rewrite (frame_globals _ _ _ Hfr) by done.
  rewrite <- Hw2, globals_store, lookup_insert_eq. done.
Qed.

Lemma import_from_ok name child names w w' :
  rsplit_dot name = (Some pkg, child) -> name ≠ pkg ->
  import_from h name names w = (Ok tt, w') ->
  forall n, n ∈ names -> exports_attr n name n w'.
Proof.
  intros Hsplit Hne H n Hn.
  apply bind_ok_inv in H as ([] & w1 & Hmod & H).
  destruct (import_module_ok _ _ _ _ Hsplit Hne Hmod) as [d Hd].
  destruct (bind_names_ok _ _ _ _ _ Hne Hd H) as [Hd' Hall].
  destruct (Hall n Hn) as [[v Hv] Hg].
  exists d, v. by rewrite Hg.
Qed.

Lemma import_as_ok name child alias w w' :
  rsplit_dot name = (Some pkg, child) -> name ≠ pkg ->
  import_as h name alias w = (Ok tt, w') ->
  exports_module alias name w'.
Proof.
  intros Hsplit Hne H.
  apply bind_ok_inv in H as ([] & w1 & Hmod & H).
  destruct (import_module_ok _ _ _ _ Hsplit Hne Hmod) as [d Hd].
  inversion H as [Hw']. split.
  - rewrite sys_modules_setattr_ne by done. eauto.
  - by rewrite globals_store, lookup_insert_eq.
Qed.

End Exports.

(** ** The exports of a successful run *)

Section BlockExports.
Context (h : Host).

Ltac stmt_frame H :=
  lazymatch type of H with
  | import_from _ ?name ?names _ = _ =>
    pose proof (relates_run _ _ _ _ _
      (import_from_frame h name _ names eq_refl ltac:(discriminate)) H)
  | import_as _ ?name ?alias _ = _ =>
    pose proof (relates_run _ _ _ _ _
      (import_as_frame h name _ alias eq_refl ltac:(discriminate)) H)
  end.

Ltac carry :=
  repeat match goal with
  | H : frame _ _ ?w2 |- exports_attr _ _ _ ?w2 =>
    apply (exports_attr_frame _ _ _ _ _ _ H); [closed_names|discriminate|]
  | H : frame _ _ ?w2 |- exports_module _ _ ?w2 =>
    apply (exports_module_frame _ _ _ _ _ H); [closed_names|discriminate|]
  end.

Ltac established :=
  first
    [ eapply import_from_ok; [reflexivity|discriminate|eassumption|closed_names]
    | eapply import_as_ok; [reflexivity|discriminate|eassumption] ].

Lemma import_block_exports w w' :
  import_block h w = (Ok tt, w') -> Forall (exported w') entry_points.
Proof.
  unfold import_block. intros H.
  apply bind_ok_inv in H as ([] & w1 & H1 & H).
  apply bind_ok_inv in H as ([] & w2 & H2 & H).
  apply bind_ok_inv in H as ([] & w3 & H3 & H).
  apply bind_ok_inv in H as ([] & w4 & H4 & H).
  apply bind_ok_inv in H as ([] & w5 & H5 & H).
  apply bind_ok_inv in H as ([] & w6 & H6 & H7).
  stmt_frame H2. stmt_frame H3. stmt_frame H4. stmt_frame H5. stmt_frame H6.
  stmt_frame H7.
  unfold entry_points. repeat apply List.Forall_cons; try apply List.Forall_nil; simpl.
  all: carry; established.
Qed.

Lemma restore_flags_modules w r w' :
  restore_flags w = (r, w') -> sys_modules w' = sys_modules w.
Proof.
  unfold restore_flags, bind, sys_platform, load_global, sys_setdlopenflags.
  destruct (decide (platform w = "linux")); [|by intros [= _ <-]].
  destruct (globals w !! "prev") as [[]|]; by intros [= _ <-].
Qed.

Lemma pyhdk_body_exports w u w' :
  pyhdk_body h w = (Ok u, w') -> Forall (exported w') entry_points.
Proof.
  intros H.
  apply pyhdk_body_ok_inv in H as (w0 & w1 & w2 & _ & H1 & H2 & H3).
  apply import_block_exports in H1. apply restore_flags_modules in H2.
  apply set_version_inv in H3
    as [(? & _)|(v & _ & [(e & _ & ? & _)|(s & _ & _ & ->)])]; try discriminate.
  unfold entry_points in *.
  repeat match goal with
         | H : Forall _ (_ :: _) |- _ => apply Forall_cons_1 in H as [? H]
         end.
  repeat apply List.Forall_cons; try apply List.Forall_nil.
  all: apply exported_store; [discriminate|discriminate|].
  all: apply (exported_same_modules _ w2); [done|].
  all: by apply (exported_same_modules _ w1).
Qed.
End BlockExports.

(** ** The log only grows *)

#[global] Instance extends_refl : Reflexive extends.
Proof. intros w. exists []. by rewrite app_nil_r. Qed.

#[global] Instance extends_trans : Transitive extends.
Proof.
  intros w1 w2 w3 [t1 H1] [t2 H2]. exists (t1 ++ t2).
  by rewrite H2, H1, app_assoc.
Qed.

Lemma extends_log e w : extends w (log e w).
Proof. by exists [e]. Qed.

Lemma frame_extends F w w' : frame F w w' -> extends w w'.
Proof. intros Hfr. destruct (frame_trace _ _ _ Hfr) as (t & Ht & _). by exists t. Qed.

Section BodyFacts.

Context (h : Host).

(** The platform branch, by cases on the platform and the environment. *)
Lemma platform_setup_cases w :
  (platform w = "linux" /\
   platform_setup h w =
     (Ok tt,
      set_dlopenflags (Z.lor RTLD_LAZY RTLD_GLOBAL)
        (log (EvSetFlags (Z.lor RTLD_LAZY RTLD_GLOBAL))
           (module_setattr pkg "prev" (VInt (dlopenflags w)) (log EvGetFlags w))))) \/
  (platform w = "win32" /\ environ w !! "JAVA_HOME" = None /\
   platform_setup h w =
     (Raise (RuntimeError
        "HDK engine requires JAVA_HOME environment variable to point to Java runtime location."),
      log (EvEnvRead "JAVA_HOME") w)) \/
  (exists java_home,
     platform w = "win32" /\ environ w !! "JAVA_HOME" = Some java_home /\
     ((dll_directory_ok h (path_join h java_home ["bin"; "server"]) = true /\
       platform_setup h w =
         (Ok tt,
          let dir := path_join h java_home ["bin"; "server"] in
          let w1 := log (EvEnvRead "JAVA_HOME") (log (EvEnvRead "JAVA_HOME") w) in
          set_dll_dirs (dll_dirs w ++ [dir]) (log (EvAddDll dir) w1))) \/
      (dll_directory_ok h (path_join h java_home ["bin"; "server"]) = false /\
       platform_setup h w =
         (Raise (OSError (path_join h java_home ["bin"; "server"])),
          log (EvAddDll (path_join h java_home ["bin"; "server"]))
            (log (EvEnvRead "JAVA_HOME") (log (EvEnvRead "JAVA_HOME") w)))))) \/
  (platform w ≠ "linux" /\ platform w ≠ "win32" /\ platform_setup h w = (Ok tt, w)).
Proof.
  destruct (decide (platform w = "linux")) as [Hl|Hl].
  { left. split; [done|]. by apply platform_setup_linux. }
  destruct (decide (platform w = "win32")) as [Hw|Hw].
  - destruct (environ w !! "JAVA_HOME") as [java_home|] eqn:Henv.
    + right. right. left. exists java_home.
      split; [done|]. split; [done|].
      destruct (dll_directory_ok h (path_join h java_home ["bin"; "server"])) eqn:Hok.
      * left. split; [done|]. by apply platform_setup_win32_java.
      * right. split; [done|]. by apply platform_setup_win32_rejected.
    + right. left. split; [done|]. split; [done|].
      by apply platform_setup_win32_no_java.
  - right. right. right. split; [done|]. split; [done|].
    by apply platform_setup_other.
Qed.

Lemma platform_setup_registered w r w' :
  is_Some (sys_modules w !! pkg) ->
  platform_setup h w = (r, w') ->
  is_Some (sys_modules w' !! pkg).
Proof.
  intros Hreg H.
  destruct (platform_setup_cases w)
    as [(_ & Hs)|[(_ & _ & Hs)|[(j & _ & _ & [(_ & Hs)|(_ & Hs)])|(_ & _ & Hs)]]];
    rewrite Hs in H; inversion H; subst; simpl; try done.
  rewrite lookup_insert_eq. eauto.
Qed.

Lemma platform_setup_extends : relates extends (platform_setup h).
Proof.
  intros w.
  destruct (platform_setup_cases w)
    as [(_ & Hs)|[(_ & _ & Hs)|[(j & _ & _ & [(_ & Hs)|(_ & Hs)])|(_ & _ & Hs)]]];
    rewrite Hs; simpl.
  - exists [EvGetFlags; EvSetFlags (Z.lor RTLD_LAZY RTLD_GLOBAL)].
    simpl. by rewrite <- app_assoc.
  - by eexists.
  - eexists. simpl. by rewrite <- !app_assoc.
  - eexists. simpl. by rewrite <- !app_assoc.
  - reflexivity.
Qed.

Lemma restore_flags_extends : relates extends restore_flags.
Proof.
  intros w. unfold restore_flags, bind, sys_platform, load_global, sys_setdlopenflags.
  destruct (decide (platform w = "linux")); [|reflexivity].
  destruct (globals w !! "prev") as [[]|]; simpl; try reflexivity.
  by eexists.
Qed.

Lemma pyhdk_body_registered w r w' :
  is_Some (sys_modules w !! pkg) ->
  pyhdk_body h w = (r, w') ->
  is_Some (sys_modules w' !! pkg).
Proof.
  intros Hreg H. unfold pyhdk_body in H.
  apply bind_inv in H as [(e & H & _)|([] & w0 & H0 & H)].
  { by eapply platform_setup_registered. }
  apply (platform_setup_registered _ _ _ Hreg) in H0.
  apply bind_inv in H as [(e & H & _)|([] & w1 & H1 & H)].
  { by eapply frame_pkg, H0; eapply relates_run; [apply import_block_frame|]. }
  assert (is_Some (sys_modules w1 !! pkg)) as Hreg1.
  { by eapply frame_pkg, H0; eapply relates_run; [apply import_block_frame|]. }
  apply bind_inv in H as [(e & H & _)|([] & w2 & H2 & H)].
  { apply restore_flags_modules in H. by rewrite H. }
  apply restore_flags_modules in H2.
  apply set_version_inv in H
    as [(_ & -> & _)|(v & _ & [(e & _ & _ & ->)|(s & _ & _ & ->)])]; simpl.
  - by rewrite H2.
  - by rewrite H2.
  - rewrite lookup_insert_eq. eauto.
Qed.

(** What a successful run leaves about the version: [__version__] holds what
    [Version.str()] returned, and that call is the last thing logged. *)
Lemma pyhdk_body_version w u w' :
  pyhdk_body h w = (Ok u, w') ->
  exists version s t,
    globals w' !! "Version" = Some version /\
    call_method h version "str" = Ok s /\
    globals w' !! "__version__" = Some s /\
    trace w' = trace w ++ t ++ [EvCall version "str"].
Proof.
  intros H.
  apply pyhdk_body_ok_inv in H as (w0 & w1 & w2 & H0 & H1 & H2 & H3).
  assert (extends w w2) as [t Ht].
  { etransitivity; [eapply relates_run; [apply platform_setup_extends|exact H0]|].
    etransitivity; [eapply frame_extends, relates_run;
                      [apply import_block_frame|exact H1]|].
    eapply relates_run; [apply restore_flags_extends|exact H2]. }
  apply set_version_inv in H3
    as [(? & _)|(v & Hv & [(e & _ & ? & _)|(s & Hs & _ & ->)])]; try discriminate.
  exists v, s, t. split; [|split; [done|split]].
  - rewrite globals_store. by rewrite lookup_insert_ne.
  - by rewrite globals_store, lookup_insert_eq.
  - simpl. by rewrite Ht, app_assoc.
Qed.

#[global] Instance stable_refl : Reflexive stable.
Proof. by intros w. Qed.

#[global] Instance stable_trans : Transitive stable.
Proof. intros w1 w2 w3 [? ?] [? ?]. split; congruence. Qed.

Lemma pyhdk_body_stable : relates stable (pyhdk_body h).
Proof.
  unfold pyhdk_body.
  apply relates_bind; [apply _| |intros _].
  { intros w.
    destruct (platform_setup_cases w)
      as [(_ & Hs)|[(_ & _ & Hs)|[(j & _ & _ & [(_ & Hs)|(_ & Hs)])|(_ & _ & Hs)]]];
      by rewrite Hs. }
  apply relates_bind; [apply _| |intros _].
  { eapply relates_weaken; [|apply import_block_frame].
    intros w w' Hfr. split; [apply (frame_platform _ _ _ Hfr)|apply (frame_environ _ _ _ Hfr)]. }
  apply relates_bind; [apply _| |intros _].
  { intros w. unfold restore_flags, bind, sys_platform, load_global, sys_setdlopenflags.
    destruct (decide (platform w = "linux")); [|done].
    by destruct (globals w !! "prev") as [[]|]. }
  eapply relates_weaken; [|apply set_version_quiet].
  intros w w' Hq. split; [apply (quiet_platform _ _ Hq)|apply (quiet_environ _ _ Hq)].
Qed.

(** On every platform a body that runs to its end leaves the mask as it
    found it. *)
Lemma pyhdk_body_flags w u w' :
  pyhdk_body h w = (Ok u, w') -> dlopenflags w' = dlopenflags w.
Proof.
  intros H. destruct (decide (platform w = "linux")) as [Hl|Hl].
  { by eapply pyhdk_body_restores. }
  unfold pyhdk_body in H.
  apply bind_ok_inv in H as ([] & w0 & H0 & H).
  assert (platform w0 = platform w /\ dlopenflags w0 = dlopenflags w) as [Hp0 Hf0].
  { destruct (platform_setup_cases w)
      as [(? & _)|[(_ & _ & Hs)|[(j & _ & _ & [(_ & Hs)|(_ & Hs)])|(_ & _ & Hs)]]];
      [done|..]; rewrite Hs in H0; by inversion H0. }
  apply after_setup_quiet in H; [|by rewrite Hp0].
  by rewrite (quiet_flags _ _ H).
Qed.

(** On linux a successful run leaves the saved mask in the global [prev]. *)
Lemma pyhdk_body_prev w u w' :
  platform w = "linux" ->
  pyhdk_body h w = (Ok u, w') ->
  globals w' !! "prev" = Some (VInt (dlopenflags w)).
Proof.
  intros Hp H.
  apply pyhdk_body_ok_inv in H as (w0 & w1 & w2 & H0 & H1 & H2 & H3).
  rewrite platform_setup_linux in H0 by done. inversion H0 as [Hw0]; clear H0.
  pose proof (relates_run _ _ _ _ _ (import_block_frame h) H1) as Hfr.
  apply restore_flags_modules in H2.
  apply set_version_inv in H3
    as [(? & _)|(v & _ & [(e & _ & ? & _)|(s & _ & _ & ->)])]; try discriminate.
  rewrite globals_store, lookup_insert_ne by done.
  unfold globals, module_dict. simpl. rewrite H2.
  change (globals w1 !! "prev" = Some (VInt (dlopenflags w))).
  rewrite (frame_globals _ _ _ Hfr) by closed_names.
  rewrite <- Hw0. unfold globals, module_dict. simpl.
  rewrite lookup_insert_eq. apply lookup_insert_eq.
Qed.

(** ** Running the body again *)

Lemma store_global_same n v w :
  is_Some (sys_modules w !! pkg) -> globals w !! n = Some v ->
  sys_modules (module_setattr pkg n v w) = sys_modules w.
Proof.
  intros [d Hd] Hg. unfold globals, module_dict in Hg. simpl.
  unfold module_dict. rewrite Hd in *. simpl in *.
  rewrite (insert_id d) by done. by apply insert_id.
Qed.

Lemma import_module_cached name w :
  is_Some (sys_modules w !! name) ->
  import_module h name w = (Ok tt, log (EvImport name (dlopenflags w)) w).
Proof. intros [d Hd]. unfold import_module. simpl. by rewrite Hd. Qed.

Lemma bind_names_again wr name names w :
  sys_modules w = sys_modules wr ->
  is_Some (sys_modules wr !! pkg) ->
  (forall n, n ∈ names -> exports_attr n name n wr) ->
  exists w', bind_names name names w = (Ok tt, w') /\
             sys_modules w' = sys_modules wr.
Proof.
  intros Hsm Hreg. revert w Hsm.
  induction names as [|n0 rest IH]; intros w Hsm Hall; simpl.
  { by exists w. }
  destruct (Hall n0) as (d & v & Hd & Hv & Hg); [by left|].
  assert (import_from_attr name n0 w = (Ok v, w)) as Hattr.
  { unfold import_from_attr, module_dict. rewrite Hsm, Hd. simpl. by rewrite Hv. }
  rewrite (bind_ok _ _ _ _ _ Hattr).
  assert (sys_modules (module_setattr pkg n0 v w) = sys_modules wr) as Hsm2.
  { rewrite store_global_same; [done|by rewrite Hsm|].
    unfold globals, module_dict. by rewrite Hsm. }
  unfold bind at 1, store_global.
  apply (IH _ Hsm2). intros n Hn. apply Hall. by right.
Qed.

Lemma import_from_again wr name names w :
  sys_modules w = sys_modules wr ->
  is_Some (sys_modules wr !! pkg) ->
  is_Some (sys_modules wr !! name) ->
  (forall n, n ∈ names -> exports_attr n name n wr) ->
  exists w', import_from h name names w = (Ok tt, w') /\
             sys_modules w' = sys_modules wr.
Proof.
  intros Hsm Hreg Hname Hall. unfold import_from.
  rewrite (bind_ok _ _ _ _ _ (import_module_cached name w ltac:(by rewrite Hsm))).
  by apply bind_names_again.
Qed.

Lemma import_as_again wr name alias w :
  sys_modules w = sys_modules wr ->
  is_Some (sys_modules wr !! pkg) ->
  exports_module alias name wr ->
  exists w', import_as h name alias w = (Ok tt, w') /\
             sys_modules w' = sys_modules wr.
Proof.
  intros Hsm Hreg [Hname Hg]. unfold import_as.
  rewrite (bind_ok _ _ _ _ _ (import_module_cached name w ltac:(by rewrite Hsm))).
  eexists. split; [reflexivity|].
  rewrite store_global_same; [done|by simpl; rewrite Hsm|].
  unfold globals, module_dict. simpl. by rewrite Hsm.
Qed.

(** One statement of the import block, run again. *)
Ltac again_with Hsm Hreg Hmod :=
  let w' := fresh "w" in let Hrun := fresh "Hrun" in let Hsm' := fresh "Hsm" in
  lazymatch goal with
  | |- exists _, bind (import_from _ ?name ?names) _ ?w = _ /\ _ =>
    destruct (import_from_again _ name names w Hsm Hreg) as (w' & Hrun & Hsm');
    [by eapply Hmod
    |intros ? ?; set_unfold; by intuition subst
    |rewrite (bind_ok _ _ _ _ _ Hrun); clear Hrun]
  | |- exists _, bind (import_as _ ?name ?alias) _ ?w = _ /\ _ =>
    destruct (import_as_again _ name alias w Hsm Hreg) as (w' & Hrun & Hsm');
    [done|rewrite (bind_ok _ _ _ _ _ Hrun); clear Hrun]
  | |- exists _, import_from _ ?name ?names ?w = _ /\ _ =>
    destruct (import_from_again _ name names w Hsm Hreg) as (w' & Hrun & Hsm');
    [by eapply Hmod
    |intros ? ?; set_unfold; by intuition subst
    |eauto]
  end.

Lemma import_block_again wr w :
  sys_modules w = sys_modules wr ->
  is_Some (sys_modules wr !! pkg) ->
  Forall (exported wr) entry_points ->
  exists w', import_block h w = (Ok tt, w') /\ sys_modules w' = sys_modules wr.
Proof.
  intros Hsm Hreg Hall. unfold entry_points in Hall.
  repeat match goal with
         | H : Forall _ (_ :: _) |- _ => apply Forall_cons_1 in H as [? H]
         end.
  clear Hall. simpl in *.
  assert (forall n m a, exports_attr n m a wr -> is_Some (sys_modules wr !! m)) as Hmod.
  { intros n m a (d & v & Hd & _). eauto. }
  unfold import_block.
  again_with Hsm Hreg Hmod.
  again_with Hsm0 Hreg Hmod.
  again_with Hsm1 Hreg Hmod.
  again_with Hsm2 Hreg Hmod.
  again_with Hsm3 Hreg Hmod.
  again_with Hsm4 Hreg Hmod.
  again_with Hsm5 Hreg Hmod.
Qed.

End BodyFacts.

(** ** The state a successful initialization leaves *)

Section Again.

Context (h : Host).

Lemma pyhdk_body_initialised w u w' :
  is_Some (sys_modules w !! pkg) ->
  pyhdk_body h w = (Ok u, w') ->
  initialised h w'.
Proof.
  intros Hreg H.
  destruct (relates_run _ _ _ _ _ (pyhdk_body_stable h) H) as [Hp He].
  split.
  - by eapply pyhdk_body_registered.
  - intros Hl. rewrite Hp in Hl.
    rewrite (pyhdk_body_flags _ _ _ _ H). by eapply pyhdk_body_prev.
  - intros Hw. rewrite Hp in Hw. rewrite He.
    apply bind_ok_inv in H as ([] & w0 & H0 & _).
    destruct (platform_setup_cases h w)
      as [(Hl & _)|[(_ & _ & Hs)|[(j & _ & Hj & [(Hok & _)|(_ & Hs)])|(_ & ? & _)]]];
      [congruence|rewrite Hs in H0; discriminate|by exists j
      |rewrite Hs in H0; discriminate|done].
  - by eapply pyhdk_body_exports.
  - destruct (pyhdk_body_version _ _ _ _ H) as (v & s & t & ? & ? & ? & _). eauto.
Qed.

Lemma pyhdk_body_again w :
  initialised h w ->
  exists w', pyhdk_body h w = (Ok tt, w') /\
             sys_modules w' = sys_modules w /\
             dlopenflags w' = dlopenflags w.
Proof.
  intros [Hreg Hprev Hjava Hexp (version & s & Hversion & Hcall & Hstored)].
  assert (exists w0, platform_setup h w = (Ok tt, w0) /\
                     sys_modules w0 = sys_modules w /\
                     platform w0 = platform w) as (w0 & H0 & Hsm0 & Hp0).
  { destruct (platform_setup_cases h w)
      as [(Hl & Hs)|[(Hw & Hnone & _)
         |[(j & Hw & Hj & [(_ & Hs)|(Hno & _)])|(_ & _ & Hs)]]].
    - eexists. split; [exact Hs|]. split; [|done]. simpl.
      apply (store_global_same "prev" (VInt (dlopenflags w)) (log EvGetFlags w));
        [done|by apply Hprev].
    - destruct (Hjava Hw) as (j & Hj & _). congruence.
    - eexists. by split; [exact Hs|].
    - destruct (Hjava Hw) as (j' & Hj' & Hok). congruence.
    - eexists. by split; [exact Hs|]. }
  destruct (import_block_again h w w0 Hsm0 Hreg Hexp) as (w1 & H1 & Hsm1).
  pose proof (relates_run _ _ _ _ _ (import_block_frame h) H1) as Hfr.
  assert (exists w2, restore_flags w1 = (Ok tt, w2) /\
                     sys_modules w2 = sys_modules w) as (w2 & H2 & Hsm2).
  { destruct (decide (platform w = "linux")) as [Hl|Hl].
    - exists (set_dlopenflags (dlopenflags w) (log (EvSetFlags (dlopenflags w)) w1)).
      split; [|done]. apply restore_flags_linux.
      + by rewrite (frame_platform _ _ _ Hfr), Hp0.
      + unfold globals, module_dict. rewrite Hsm1. by apply Hprev.
    - exists w1. split; [|done]. apply restore_flags_not_linux.
      by rewrite (frame_platform _ _ _ Hfr), Hp0. }
  assert (exists w', set_version h w2 = (Ok tt, w') /\
                     sys_modules w' = sys_modules w) as (w' & H3 & Hsm').
  { unfold set_version, bind, load_global, call, store_global.
    unfold globals, module_dict. rewrite Hsm2.
    fold (module_dict pkg w). fold (globals w). rewrite Hversion, Hcall.
    eexists. split; [reflexivity|].
    rewrite store_global_same; [done|by simpl; rewrite Hsm2|].
    unfold globals, module_dict. simpl. by rewrite Hsm2. }
  assert (pyhdk_body h w = (Ok tt, w')) as Hbody.
  { unfold pyhdk_body.
    by rewrite (bind_ok _ _ _ _ _ H0), (bind_ok _ _ _ _ _ H1), (bind_ok _ _ _ _ _ H2). }
  exists w'. split; [done|]. split; [done|]. by eapply pyhdk_body_flags.
Qed.

End Again.

(** A first import that succeeds is a successful run of the body in the
    newly registered package. *)
Lemma import_pyhdk_first_ok h w w' :
  sys_modules w !! pkg = None ->
  import_pyhdk h w = (Ok tt, w') ->
  pyhdk_body h (register_pkg w) = (Ok tt, w').
Proof.
  intros Hnew. unfold import_pyhdk. rewrite Hnew.
  destruct (pyhdk_body h (register_pkg w)) as [[[]|e] w1]; by intros [= <-].
Qed.

Lemma register_pkg_registered w : is_Some (sys_modules (register_pkg w) !! pkg).
Proof. simpl. rewrite lookup_insert_eq. eauto. Qed.

(** ** The log of the import block *)

Lemma imports_of_app t1 t2 : imports_of (t1 ++ t2) = imports_of t1 ++ imports_of t2.
Proof.
  induction t1 as [|[] t1 IH]; simpl; try done. by rewrite IH.
Qed.

Lemma loads_of_app t1 t2 : loads_of (t1 ++ t2) = loads_of t1 ++ loads_of t2.
Proof.
  induction t1 as [|[] t1 IH]; simpl; try done. by rewrite IH.
Qed.

Lemma logs_seq F l1 l2 (m1 m2 : M unit) :
  Forall (fun name => name ≠ pkg) l2 ->
  relates (frame F) m1 -> logs l1 m1 -> logs l2 m2 ->
  logs (l1 ++ l2) (m1 ;; m2).
Proof.
  intros Hl2 Hfr H1 H2 w r w' H.
  apply bind_inv in H as [(e & H & ->)|([] & w1 & Hm1 & Hm2)].
  - destruct (H1 _ _ _ H) as (t & Ht & Hpre & _ & Hsub & Hnone).
    exists t. split; [done|]. split; [by apply prefix_app_r|].
    split; [done|]. done.
  - destruct (H1 _ _ _ Hm1) as (t1 & Ht1 & _ & Hall1 & Hsub1 & Hnone1).
    destruct (H2 _ _ _ Hm2) as (t2 & Ht2 & Hpre2 & Hall2 & Hsub2 & Hnone2).
    specialize (Hall1 eq_refl).
    exists (t1 ++ t2). rewrite imports_of_app, loads_of_app, Hall1.
    split; [by rewrite Ht2, Ht1, app_assoc|].
    split; [by apply prefix_app|].
    split; [intros Hr; by rewrite Hall2|].
    split; [rewrite <- Hall1; by apply sublist_app|].
    apply Forall_app. split; [done|].
    pose proof (relates_run _ _ _ _ _ Hfr Hm1) as Hframe.
    apply Forall_forall. intros name Hname.
    assert (name ≠ pkg) as Hne.
    { eapply (proj1 (Forall_forall _ _) Hl2).
      eapply elem_of_prefix; [|exact Hpre2].
      by eapply elem_of_sublist. }
    destruct (sys_modules w !! name) as [d|] eqn:Hd; [|done].
    apply (frame_modules _ _ _ Hframe _ _ Hne) in Hd.
    pose proof (proj1 (Forall_forall _ _) Hnone2 _ Hname). congruence.
Qed.

Section Logs.

Context (h : Host).

Lemma bind_names_trace name names w r w' :
  bind_names name names w = (r, w') -> trace w' = trace w.
Proof.
  revert w. induction names as [|n rest IH]; intros w; simpl.
  { by intros [= _ <-]. }
  unfold bind at 1, import_from_attr.
  destruct (module_dict name w !! n); [|by intros [= _ <-]].
  unfold bind at 1, store_global. intros H. by apply IH in H.
Qed.

Lemma import_module_log name :
  logs [name] (import_module h name).
Proof.
  intros w r w'. unfold import_module. simpl.
  destruct (sys_modules w !! name) as [d|] eqn:Hcached.
  { intros [= <- <-]. exists [EvImport name (dlopenflags w)].
    simpl. repeat split; try done. apply sublist_nil_l. }
  intros H. exists [EvImport name (dlopenflags w); EvLoad name (dlopenflags w)].
  assert (trace w' = (trace w ++ [EvImport name (dlopenflags w)]) ++
                     [EvLoad name (dlopenflags w)]) as ->.
  { destruct (load_module h name); [destruct (rsplit_dot name) as [[p|] c]|];
      by inversion H. }
  simpl. split; [by rewrite <- app_assoc|]. repeat split; try done.
  by repeat constructor.
Qed.

Lemma import_from_log name names : logs [name] (import_from h name names).
Proof.
  intros w r w' H. apply bind_inv in H as [(e & H & ->)|([] & w1 & Hm & Hn)].
  { by apply import_module_log in H as (t & ? & ? & _ & ? & ?); exists t. }
  apply import_module_log in Hm as (t & Ht & Hpre & Hall & Hsub & Hnone).
  apply bind_names_trace in Hn. exists t. rewrite Hn.
  repeat split; try done. intros _. by apply Hall.
Qed.

Lemma import_as_log name alias : logs [name] (import_as h name alias).
Proof.
  intros w r w' H. apply bind_inv in H as [(e & H & ->)|([] & w1 & Hm & Hn)].
  { by apply import_module_log in H as (t & ? & ? & _ & ? & ?); exists t. }
  apply import_module_log in Hm as (t & Ht & Hpre & Hall & Hsub & Hnone).
  inversion Hn; subst. by exists t.
Qed.

Lemma import_block_log : logs engine_modules (import_block h).
Proof.
  unfold import_block.
  change engine_modules with
    (["pyhdk._common"] ++ ["pyhdk._execute"] ++ ["pyhdk.sql"] ++ ["pyhdk.storage"] ++
     ["pyhdk.hdk"] ++ ["pyhdk._builder"] ++ ["pyhdk.version"]).
  repeat (eapply logs_seq;
    [by repeat constructor
    |first [apply import_from_frame | apply import_as_frame]; [reflexivity|discriminate]
    |first [apply import_from_log | apply import_as_log]
    |]).
  apply import_from_log.
Qed.

End Logs.

#[global] Instance no_imports_refl : Reflexive no_imports.
Proof. intros w. split; [|done]. exists []. by rewrite app_nil_r. Qed.

#[global] Instance no_imports_trans : Transitive no_imports.
Proof.
  intros w1 w2 w3 [(t1 & Ht1 & Hi1 & Hl1) Hm1] [(t2 & Ht2 & Hi2 & Hl2) Hm2].
  split.
  - exists (t1 ++ t2). rewrite imports_of_app, loads_of_app, Hi1, Hi2, Hl1, Hl2.
    by rewrite Ht2, Ht1, app_assoc.
  - intros k Hk. by rewrite Hm2, Hm1.
Qed.

Lemma import_log_names_ne l name :
  Forall (fun n => n ≠ pkg) l ->
  forall t, imports_of t `prefix_of` l -> loads_of t `sublist_of` imports_of t ->
  name ∈ loads_of t -> name ≠ pkg.
Proof.
  intros Hl t Hpre Hsub Hname.
  eapply (proj1 (Forall_forall _ _) Hl), elem_of_prefix; [|exact Hpre].
  by eapply elem_of_sublist.
Qed.

Lemma import_log_pre l w w0 r w1 :
  Forall (fun n => n ≠ pkg) l ->
  no_imports w w0 -> import_log l w0 r w1 -> import_log l w r w1.
Proof.
  intros Hl [(ts & Hts & His & Hls) Hmod] (t & Ht & Hpre & Hall & Hsub & Hnone).
  exists (ts ++ t). rewrite imports_of_app, loads_of_app, His, Hls. simpl.
  split; [by rewrite Ht, Hts, app_assoc|]. repeat split; try done.
  apply Forall_forall. intros name Hname.
  rewrite <- Hmod by (by eapply import_log_names_ne).
  by apply (proj1 (Forall_forall _ _) Hnone).
Qed.

Lemma import_log_post l w w1 r w2 :
  import_log l w (Ok tt) w1 -> no_imports w1 w2 -> import_log l w r w2.
Proof.
  intros (t & Ht & Hpre & Hall & Hsub & Hnone) [(tp & Htp & Hip & Hlp) _].
  exists (t ++ tp). rewrite imports_of_app, loads_of_app, Hip, Hlp, !app_nil_r.
  split; [by rewrite Htp, Ht, app_assoc|]. repeat split; try done.
  intros _. by apply Hall.
Qed.

Lemma no_imports_log l w r w' :
  no_imports w w' -> r ≠ Ok tt -> import_log l w r w'.
Proof.
  intros [(t & Ht & Hi & Hl) _] Hr. exists t. rewrite Hi, Hl.
  repeat split; try done. apply prefix_nil.
Qed.

Lemma engine_modules_ne_pkg : Forall (fun n => n ≠ pkg) engine_modules.
Proof. by repeat constructor. Qed.

Section BodyLog.

Context (h : Host).

Lemma platform_setup_no_imports : relates no_imports (platform_setup h).
Proof.
  intros w.
  destruct (platform_setup_cases h w)
    as [(_ & Hs)|[(_ & _ & Hs)
       |[(j & _ & _ & [(_ & Hs)|(_ & Hs)])|(_ & _ & Hs)]]];
    rewrite Hs; simpl; [| | | |reflexivity].
  - split.
    + exists [EvGetFlags; EvSetFlags (Z.lor RTLD_LAZY RTLD_GLOBAL)].
      simpl. by rewrite <- app_assoc.
    + intros k Hk. simpl. by rewrite lookup_insert_ne.
  - split; [|done]. by exists [EvEnvRead "JAVA_HOME"].
  - split; [|done]. eexists. simpl. by rewrite <- !app_assoc.
  - split; [|done]. eexists. simpl. by rewrite <- !app_assoc.
Qed.

Lemma restore_flags_no_imports : relates no_imports restore_flags.
Proof.
  intros w. unfold restore_flags, bind, sys_platform, load_global, sys_setdlopenflags.
  destruct (decide (platform w = "linux")); [|reflexivity].
  destruct (globals w !! "prev") as [[]|]; simpl; try reflexivity.
  split; [|done]. by eexists [_].
Qed.

Lemma set_version_no_imports : relates no_imports (set_version h).
Proof.
  intros w. destruct (set_version h w) as [r w'] eqn:H. simpl.
  apply set_version_inv in H
    as [(_ & -> & _)|(v & _ & [(e & _ & _ & ->)|(s & _ & _ & ->)])];
    [reflexivity| |].
  - split; [|done]. by exists [EvCall v "str"].
  - split; [by exists [EvCall v "str"]|].
    intros k Hk. simpl. by rewrite lookup_insert_ne.
Qed.

Lemma pyhdk_body_log w r w' :
  pyhdk_body h w = (r, w') -> import_log engine_modules w r w'.
Proof.
  intros H. unfold pyhdk_body in H.
  apply bind_inv in H as [(e & H & ->)|([] & w0 & H0 & H)].
  { apply no_imports_log; [|done].
    eapply relates_run; [apply platform_setup_no_imports|exact H]. }
  apply (import_log_pre _ _ w0); [apply engine_modules_ne_pkg| |].
  { eapply relates_run; [apply platform_setup_no_imports|exact H0]. }
  apply bind_inv in H as [(e & H & ->)|([] & w1 & H1 & H)].
  { by apply import_block_log in H. }
  apply import_block_log in H1.
  apply (import_log_post _ _ w1); [done|].
  apply bind_inv in H as [(e & H & _)|([] & w2 & H2 & H)].
  { eapply relates_run; [apply restore_flags_no_imports|exact H]. }
  etransitivity; [eapply relates_run; [apply restore_flags_no_imports|exact H2]|].
  eapply relates_run; [apply set_version_no_imports|exact H].
Qed.

Lemma import_pyhdk_log w r w' :
  sys_modules w !! pkg = None ->
  import_pyhdk h w = (r, w') ->
  import_log engine_modules w r w'.
Proof.
  intros Hnew. unfold import_pyhdk. rewrite Hnew.
  destruct (pyhdk_body h (register_pkg w)) as [r1 w1] eqn:Hbody. intros H.
  apply pyhdk_body_log in Hbody as (t & Ht & Hpre & Hall & Hsub & Hnone).
  assert (trace w' = trace w1 /\ (r = Ok tt -> r1 = Ok tt)) as [Htr Hr].
  { destruct r1 as [[]|e]; inversion H; subst; by split. }
  exists t. rewrite Htr. repeat split; try done.
  - intros Hok. by apply Hall, Hr.
  - apply Forall_forall. intros name Hname.
    pose proof (proj1 (Forall_forall _ _) Hnone _ Hname) as Hn. simpl in Hn.
    rewrite lookup_insert_ne in Hn; [done|].
    intros <-. by eapply (import_log_names_ne _ pkg engine_modules_ne_pkg).
Qed.

End BodyLog.

(** ** Where an exception can come from *)

Section Raises.

Context (h : Host).

Lemma import_module_raise name w e w' :
  import_module h name w = (Raise e, w') -> load_module h name = Raise e.
Proof.
  unfold import_module. simpl.
  destruct (sys_modules w !! name); [done|].
  destruct (load_module h name) as [d|e0]; [|by intros [= ->]].
  by destruct (rsplit_dot name) as [[p|] c].
Qed.

Lemma bind_names_raise name names w e w' :
  bind_names name names w = (Raise e, w') ->
  exists n, n ∈ names /\ e = ImportErrorName n name.
Proof.
  revert w. induction names as [|n rest IH]; intros w; simpl; [done|].
  unfold bind at 1, import_from_attr.
  destruct (module_dict name w !! n).
  - unfold bind at 1, store_global. intros H.
    destruct (IH _ H) as (n' & Hn' & He). exists n'. split; [by right|done].
  - intros [= <- _]. exists n. split; [by left|done].
Qed.

Lemma import_from_raise name names w e w' :
  import_from h name names w = (Raise e, w') ->
  load_module h name = Raise e \/
  exists n, n ∈ names /\ e = ImportErrorName n name.
Proof.
  intros H. apply bind_inv in H as [(e0 & H & [= ->])|([] & w1 & _ & H)].
  - left. by eapply import_module_raise.
  - right. by eapply bind_names_raise.
Qed.

Lemma import_as_raise name alias w e w' :
  import_as h name alias w = (Raise e, w') -> load_module h name = Raise e.
Proof.
  intros H. apply bind_inv in H as [(e0 & H & [= ->])|([] & w1 & _ & H)]; [|done].
  by eapply import_module_raise.
Qed.

Lemma import_block_raise w e w' :
  import_block h w = (Raise e, w') ->
  (exists name, name ∈ engine_modules /\ load_module h name = Raise e) \/
  (exists n m, n ∈ imported_names /\ m ∈ engine_modules /\ e = ImportErrorName n m).
Proof.
  unfold import_block. intros H.
  repeat match type of H with
  | bind _ _ _ = _ =>
    apply bind_inv in H as [(e0 & H & [= ->])|([] & ? & _ & H)]
  end;
  repeat match type of H with
  | import_from _ _ _ _ = _ =>
    apply import_from_raise in H as [H|(n & Hn & ->)]
  | import_as _ _ _ _ = _ => apply import_as_raise in H
  end;
  try (left; eexists; split; [|exact H]; closed_names);
  right; exists n; eexists; (split; [|split; [|reflexivity]; closed_names]);
  unfold imported_names; set_unfold; intuition.
Qed.

Lemma pyhdk_body_raise w e w' :
  pyhdk_body h w = (Raise e, w') ->
  (platform w = "win32" /\ environ w !! "JAVA_HOME" = None /\
   e = RuntimeError
     "HDK engine requires JAVA_HOME environment variable to point to Java runtime location.") \/
  (exists java_home,
     platform w = "win32" /\ environ w !! "JAVA_HOME" = Some java_home /\
     dll_directory_ok h (path_join h java_home ["bin"; "server"]) = false /\
     e = OSError (path_join h java_home ["bin"; "server"])) \/
  (exists name, name ∈ engine_modules /\ load_module h name = Raise e) \/
  (exists n m, n ∈ imported_names /\ m ∈ engine_modules /\ e = ImportErrorName n m) \/
  (exists version, call_method h version "str" = Raise e).
Proof.
  intros H. unfold pyhdk_body in H.
  apply bind_inv in H as [(e0 & H & [= ->])|([] & w0 & H0 & H)].
  { destruct (platform_setup_cases h w)
      as [(_ & Hs)|[(? & ? & Hs)
         |[(j & ? & ? & [(_ & Hs)|(? & Hs)])|(_ & _ & Hs)]]];
      rewrite Hs in H; inversion H; subst; [by left|].
    right; left. by exists j. }
  apply bind_inv in H as [(e0 & H & [= ->])|([] & w1 & H1 & H)].
  { right; right. apply import_block_raise in H as [?|?]; eauto. }
  pose proof (relates_run _ _ _ _ _ (import_block_frame h) H1) as Hfr.
  assert (exists w2, restore_flags w1 = (Ok tt, w2) /\
                     sys_modules w2 = sys_modules w1) as (w2 & H2 & Hsm2).
  { destruct (platform_setup_cases h w)
      as [(Hl & Hs)|[(_ & _ & Hs)
         |[(j & Hw & _ & [(_ & Hs)|(_ & Hs)])|(Hl & _ & Hs)]]];
      rewrite Hs in H0; inversion H0 as [Hw0]; clear H0.
    - exists (set_dlopenflags (dlopenflags w) (log (EvSetFlags (dlopenflags w)) w1)).
      split; [|done]. apply restore_flags_linux.
      + rewrite (frame_platform _ _ _ Hfr). by rewrite <- Hw0.
      + rewrite (frame_globals _ _ _ Hfr) by closed_names.
        rewrite <- Hw0. unfold globals, module_dict. simpl.
        rewrite lookup_insert_eq. apply lookup_insert_eq.
    - exists w1. split; [|done]. apply restore_flags_not_linux.
      rewrite (frame_platform _ _ _ Hfr), <- Hw0. simpl. by rewrite Hw.
    - exists w1. split; [|done]. apply restore_flags_not_linux.
      by rewrite (frame_platform _ _ _ Hfr), <- Hw0. }
  rewrite (bind_ok _ _ _ _ _ H2) in H.
  apply set_version_inv in H
    as [(_ & _ & Hnone)|(v & _ & [(e0 & Hcall & [= ->] & _)|(s & _ & ? & _)])];
    [|eauto 8|done].
  exfalso.
  pose proof (import_block_exports h _ _ H1) as Hexp.
  assert (exported w1 ("Version", "pyhdk.version", Some "Version")) as Hv.
  { apply (proj1 (Forall_forall _ _) Hexp). closed_names. }
  destruct Hv as (d & v & _ & _ & Hg).
  unfold globals, module_dict in Hnone, Hg. rewrite Hsm2 in Hnone. congruence.
Qed.

End Raises.

Lemma engine_modules_NoDup : NoDup engine_modules.
Proof. closed_names. Qed.

Lemma prefix_is_sublist {A} (l1 l2 : list A) :
  l1 `prefix_of` l2 -> l1 `sublist_of` l2.
Proof. intros [k ->]. by apply sublist_inserts_r. Qed.

(** ** The globals of the package *)

Section Globals.

Context (h : Host).

Lemma pyhdk_body_globals_bound w u w' n :
  globals w = ∅ ->
  pyhdk_body h w = (Ok u, w') ->
  is_Some (globals w' !! n) ->
  n ∈ block_names \/ n = "__version__" \/ (n = "prev" /\ platform w = "linux").
Proof.
  intros Hempty H Hn.
  destruct (decide (n ∈ block_names)) as [?|Hblock]; [by left|].
  destruct (decide (n = "__version__")) as [?|Hver]; [by right; left|].
  destruct (decide (n = "prev" /\ platform w = "linux")) as [?|Hprev];
    [by right; right|].
  exfalso.
  apply pyhdk_body_ok_inv in H as (w0 & w1 & w2 & H0 & H1 & H2 & H3).
  pose proof (relates_run _ _ _ _ _ (import_block_frame h) H1) as Hfr.
  apply restore_flags_modules in H2.
  apply set_version_inv in H3
    as [(? & _)|(v & _ & [(e & _ & ? & _)|(s & _ & _ & ->)])]; try discriminate.
  rewrite globals_store, lookup_insert_ne in Hn by done.
  unfold globals, module_dict in Hn. simpl in Hn. rewrite H2 in Hn.
  change (is_Some (globals w1 !! n)) in Hn.
  rewrite (frame_globals _ _ _ Hfr) in Hn by done.
  assert (globals w0 !! n = None) as Hnone; [|rewrite Hnone in Hn; by destruct Hn].
  destruct (platform_setup_cases h w)
    as [(Hl & Hs)|[(_ & _ & Hs)
       |[(j & _ & _ & [(_ & Hs)|(_ & Hs)])|(_ & _ & Hs)]]];
    rewrite Hs in H0; inversion H0 as [Hw0]; clear H0; rewrite <- ?Hw0.
  - change (globals (module_setattr pkg "prev" (VInt (dlopenflags w))
                       (log EvGetFlags w)) !! n = None).
    rewrite globals_store, lookup_insert_ne; [|intros <-; by apply Hprev].
    change (globals w !! n = None). by rewrite Hempty.
  - change (globals w !! n = None). by rewrite Hempty.
  - by rewrite Hempty.
Qed.

Lemma globals_register_pkg w : globals (register_pkg w) = ∅.
Proof. unfold globals, module_dict. simpl. by rewrite lookup_insert_eq. Qed.

End Globals.

(** ** Runs that leave the Java settings alone *)

#[global] Instance no_java_refl : Reflexive no_java.
Proof. intros w. repeat split. exists []. by rewrite app_nil_r. Qed.

#[global] Instance no_java_trans : Transitive no_java.
Proof.
  intros w1 w2 w3 (Hp1 & He1 & Hd1 & t1 & Ht1 & Hall1) (Hp2 & He2 & Hd2 & t2 & Ht2 & Hall2).
  repeat split; try congruence.
  exists (t1 ++ t2). split; [by rewrite Ht2, Ht1, app_assoc|by apply Forall_app].
Qed.

Lemma quiet_no_java w w' : quiet w w' -> no_java w w'.
Proof.
  intros [Hp Hf He Hd (t & Ht & Hall)]. repeat split; try done.
  exists t. split; [done|]. eapply Forall_impl; [exact Hall|].
  by intros [].
Qed.

Lemma restore_flags_no_java : relates no_java restore_flags.
Proof.
  intros w. unfold restore_flags, bind, sys_platform, load_global, sys_setdlopenflags.
  destruct (decide (platform w = "linux")); [|reflexivity].
  destruct (globals w !! "prev") as [[]|]; simpl; try reflexivity.
  repeat split. eexists [_]. split; [done|]. by repeat constructor.
Qed.

Section Java.

Context (h : Host).

Lemma pyhdk_body_linux_no_java w r w' :
  platform w = "linux" -> pyhdk_body h w = (r, w') -> no_java w w'.
Proof.
  intros Hp H. unfold pyhdk_body in H.
  rewrite (bind_ok _ _ _ _ _ (platform_setup_linux h w Hp)) in H.
  etransitivity.
  { instantiate (1 := set_dlopenflags _ (log _ (module_setattr pkg "prev" _ (log _ w)))).
    repeat split. exists [EvGetFlags; EvSetFlags (Z.lor RTLD_LAZY RTLD_GLOBAL)].
    split; [simpl; by rewrite <- app_assoc|]. by repeat constructor. }
  apply bind_inv in H as [(e & H & _)|([] & w1 & H1 & H)].
  { eapply quiet_no_java, frame_quiet, relates_run; [apply import_block_frame|exact H]. }
  etransitivity.
  { eapply quiet_no_java, frame_quiet, relates_run; [apply import_block_frame|exact H1]. }
  apply bind_inv in H as [(e & H & _)|([] & w2 & H2 & H)].
  { eapply relates_run; [apply restore_flags_no_java|exact H]. }
  etransitivity; [eapply relates_run; [apply restore_flags_no_java|exact H2]|].
  eapply quiet_no_java, relates_run; [apply set_version_quiet|exact H].
Qed.

Lemma pyhdk_body_win32_dll w java_home r w' :
  platform w = "win32" -> environ w !! "JAVA_HOME" = Some java_home ->
  dll_directory_ok h (path_join h java_home ["bin"; "server"]) = true ->
  pyhdk_body h w = (r, w') ->
  dll_dirs w' = dll_dirs w ++ [path_join h java_home ["bin"; "server"]].
Proof.
  intros Hp Henv Hok H. unfold pyhdk_body in H.
  rewrite (bind_ok _ _ _ _ _ (platform_setup_win32_java h w _ Hp Henv Hok)) in H.
  apply after_setup_quiet in H; [|simpl; by rewrite Hp].
  by rewrite (quiet_dll_dirs _ _ H).
Qed.

End Java.

(** ** When the import succeeds *)

Section Total.

Context (h : Host).

Lemma bind_names_total name names d w :
  name ≠ pkg -> sys_modules w !! name = Some d ->
  Forall (fun a => is_Some (d !! a)) names ->
  exists w', bind_names name names w = (Ok tt, w') /\
             forall k, k ≠ pkg -> sys_modules w' !! k = sys_modules w !! k.
Proof.
  intros Hne. revert w. induction names as [|n rest IH]; intros w Hd Hall; simpl.
  { by exists w. }
  apply Forall_cons_1 in Hall as [[v Hv] Hrest].
  unfold bind at 1, import_from_attr, module_dict. rewrite Hd. simpl. rewrite Hv.
  unfold bind at 1, store_global.
  destruct (IH (module_setattr pkg n v w)) as (w' & Hrun & Hsame); [|done|].
  { by rewrite sys_modules_setattr_ne. }
  exists w'. split; [done|]. intros k Hk.
  rewrite Hsame by done. by apply sys_modules_setattr_ne.
Qed.

Lemma import_module_fresh name child d w :
  rsplit_dot name = (Some pkg, child) -> name ≠ pkg ->
  sys_modules w !! name = None -> load_module h name = Ok d ->
  exists w', import_module h name w = (Ok tt, w') /\
             sys_modules w' !! name = Some d /\
             forall k, k ≠ pkg -> k ≠ name -> sys_modules w' !! k = sys_modules w !! k.
Proof.
  intros Hsplit Hne Hnone Hload. unfold import_module. simpl.
  rewrite Hnone, Hload, Hsplit. eexists. split; [reflexivity|]. simpl. split.
  - rewrite lookup_insert_ne by done. apply lookup_insert_eq.
  - intros k Hk Hkn. by rewrite !lookup_insert_ne.
Qed.

Lemma import_from_fresh name child names d w :
  rsplit_dot name = (Some pkg, child) -> name ≠ pkg ->
  sys_modules w !! name = None -> load_module h name = Ok d ->
  Forall (fun a => is_Some (d !! a)) names ->
  exists w', import_from h name names w = (Ok tt, w') /\
             sys_modules w' !! name = Some d /\
             forall k, k ≠ pkg -> k ≠ name -> sys_modules w' !! k = sys_modules w !! k.
Proof.
  intros Hsplit Hne Hnone Hload Hall.
  destruct (import_module_fresh _ _ _ _ Hsplit Hne Hnone Hload)
    as (w1 & H1 & Hd1 & Hsame1).
  destruct (bind_names_total _ _ _ _ Hne Hd1 Hall) as (w' & H2 & Hsame2).
  exists w'. unfold import_from. rewrite (bind_ok _ _ _ _ _ H1).
  split; [done|]. split; [by rewrite Hsame2|].
  intros k Hk Hkn. rewrite Hsame2 by done. by apply Hsame1.
Qed.

Lemma import_as_fresh name child alias d w :
  rsplit_dot name = (Some pkg, child) -> name ≠ pkg ->
  sys_modules w !! name = None -> load_module h name = Ok d ->
  exists w', import_as h name alias w = (Ok tt, w') /\
             sys_modules w' !! name = Some d /\
             forall k, k ≠ pkg -> k ≠ name -> sys_modules w' !! k = sys_modules w !! k.
Proof.
  intros Hsplit Hne Hnone Hload.
  destruct (import_module_fresh _ _ _ _ Hsplit Hne Hnone Hload)
    as (w1 & H1 & Hd1 & Hsame1).
  eexists. unfold import_as. rewrite (bind_ok _ _ _ _ _ H1).
  split; [reflexivity|]. split.
  - by rewrite sys_modules_setattr_ne.
  - intros k Hk Hkn. rewrite sys_modules_setattr_ne by done. by apply Hsame1.
Qed.

(** The module is still unregistered after the statements run so far. *)
Ltac still_fresh :=
  repeat match goal with
  | Hs : forall k, k ≠ pkg -> k ≠ _ -> sys_modules ?w' !! k = _
    |- sys_modules ?w' !! _ = None => rewrite Hs by discriminate
  end;
  assumption.

(** One statement of the import block, run for a module that loads. *)
Ltac fresh_stmt :=
  let w' := fresh "w" in
  let Hrun := fresh "Hrun" in
  let Hreg := fresh "Hreg" in
  let Hsame := fresh "Hsame" in
  lazymatch goal with
  | Hload : load_module _ ?name = Ok _
    |- exists _ _, bind (import_from _ ?name ?names) _ ?w = _ /\ _ =>
    destruct (import_from_fresh name _ names _ w eq_refl ltac:(discriminate)
                ltac:(still_fresh) Hload ltac:(assumption))
      as (w' & Hrun & Hreg & Hsame);
    rewrite (bind_ok _ _ _ _ _ Hrun); clear Hrun
  | Hload : load_module _ ?name = Ok _
    |- exists _ _, bind (import_as _ ?name ?alias) _ ?w = _ /\ _ =>
    destruct (import_as_fresh name _ alias _ w eq_refl ltac:(discriminate)
                ltac:(still_fresh) Hload)
      as (w' & Hrun & Hreg & Hsame);
    rewrite (bind_ok _ _ _ _ _ Hrun); clear Hrun
  end.

Lemma import_block_total w :
  complete_engine h ->
  Forall (fun name => sys_modules w !! name = None) engine_modules ->
  exists w' d,
    import_block h w = (Ok tt, w') /\
    load_module h "pyhdk.version" = Ok d /\
    sys_modules w' !! "pyhdk.version" = Some d.
Proof.
  intros [Hmods _] Hnone. unfold required_attrs in Hmods. unfold engine_modules in Hnone.
  repeat match goal with
         | H : Forall _ (_ :: _) |- _ => apply Forall_cons_1 in H as [? H]
         end.
  clear Hmods Hnone.
  repeat match goal with
         | H : exists d, load_module _ _ = Ok d /\ _ |- _ =>
           let d := fresh "d" in let Hl := fresh "Hload" in
           destruct H as (d & Hl & ?)
         end.
  unfold import_block.
  do 6 fresh_stmt.
  lazymatch goal with
  | Hload : load_module _ "pyhdk.version" = Ok ?d
    |- exists _ _, import_from _ _ _ ?w = _ /\ _ =>
    destruct (import_from_fresh "pyhdk.version" _ ["Version"] _ w eq_refl
                ltac:(discriminate) ltac:(still_fresh) Hload ltac:(assumption))
      as (w' & Hrun & Hreg' & _);
    by exists w', d
  end.
Qed.

Lemma pyhdk_body_total w :
  complete_engine h ->
  Forall (fun name => sys_modules w !! name = None) engine_modules ->
  (platform w = "win32" ->
   exists java_home,
     environ w !! "JAVA_HOME" = Some java_home /\
     dll_directory_ok h (path_join h java_home ["bin"; "server"]) = true) ->
  exists w', pyhdk_body h w = (Ok tt, w').
Proof.
  intros Hcomplete Hnone Hjava.
  assert (exists w0, platform_setup h w = (Ok tt, w0)) as [w0 H0].
  { destruct (platform_setup_cases h w)
      as [(_ & Hs)|[(Hw & Hj & _)
         |[(j & Hw & Hj & [(_ & Hs)|(Hno & _)])|(_ & _ & Hs)]]]; eauto.
    - destruct (Hjava Hw) as (j & Hj' & _). congruence.
    - destruct (Hjava Hw) as (j' & Hj' & Hok). congruence. }
  pose proof (relates_run _ _ _ _ _ (platform_setup_no_imports h) H0) as [_ Hsame0].
  assert (Forall (fun name => sys_modules w0 !! name = None) engine_modules) as Hnone0.
  { apply Forall_forall. intros name Hname.
    rewrite Hsame0; [by apply (proj1 (Forall_forall _ _) Hnone)|].
    by apply (proj1 (Forall_forall _ _) engine_modules_ne_pkg). }
  destruct (import_block_total w0 Hcomplete Hnone0) as (w1 & d & H1 & Hload & Hd).
  pose proof (relates_run _ _ _ _ _ (import_block_frame h) H1) as Hfr.
  assert (exists w2, restore_flags w1 = (Ok tt, w2) /\
                     sys_modules w2 = sys_modules w1) as (w2 & H2 & Hsm2).
  { destruct (platform_setup_cases h w)
      as [(Hl & Hs)|[(_ & _ & Hs)
         |[(j & Hw & _ & [(_ & Hs)|(_ & Hs)])|(Hl & _ & Hs)]]];
      rewrite Hs in H0; inversion H0 as [Hw0]; clear H0.
    - exists (set_dlopenflags (dlopenflags w) (log (EvSetFlags (dlopenflags w)) w1)).
      split; [|done]. apply restore_flags_linux.
      + rewrite (frame_platform _ _ _ Hfr). by rewrite <- Hw0.
      + rewrite (frame_globals _ _ _ Hfr) by closed_names.
        rewrite <- Hw0. unfold globals, module_dict. simpl.
        rewrite lookup_insert_eq. apply lookup_insert_eq.
    - exists w1. split; [|done]. apply restore_flags_not_linux.
      rewrite (frame_platform _ _ _ Hfr), <- Hw0. simpl. by rewrite Hw.
    - exists w1. split; [|done]. apply restore_flags_not_linux.
      by rewrite (frame_platform _ _ _ Hfr), <- Hw0. }
  assert (exported w1 ("Version", "pyhdk.version", Some "Version")) as Hv.
  { apply (proj1 (Forall_forall _ _) (import_block_exports h _ _ H1)). closed_names. }
  destruct Hv as (d' & version & Hd' & Hversion & Hg).
  assert (d' = d) as -> by congruence.
  destruct (proj2 Hcomplete _ _ Hload Hversion) as [s Hcall].
  eexists. unfold pyhdk_body.
  rewrite (bind_ok _ _ _ _ _ H0), (bind_ok _ _ _ _ _ H1), (bind_ok _ _ _ _ _ H2).
  unfold set_version, bind, load_global, call, store_global.
  unfold globals, module_dict in *. rewrite Hsm2, Hg, Hcall. reflexivity.
Qed.

End Total.

(** The sample engine is complete. *)
Lemma demo_host_complete : complete_engine demo_host.
Proof.
  split.
  - unfold required_attrs.
    repeat apply List.Forall_cons; try apply List.Forall_nil;
      (eexists; split; [reflexivity|]);
      repeat apply List.Forall_cons; try apply List.Forall_nil;
      closed_names.
  - intros d version Hload Hv.
    change (Ok (<["Version" := VForeign "Version"]> ∅) = Ok d) in Hload.
    injection Hload as <-. rewrite lookup_insert_eq in Hv. injection Hv as <-.
    by exists (VStr "0.9.0").
Qed.

(** ** What the import registers *)

#[global] Instance loads_from_refl h : Reflexive (loads_from h).
Proof. intros w name _. by left. Qed.

#[global] Instance loads_from_trans h : Transitive (loads_from h).
Proof.
  intros w1 w2 w3 H12 H23 name Hne.
  destruct (H12 name Hne) as [E12|(Hnone & d & Hload & Hd)];
    destruct (H23 name Hne) as [E23|(Hnone' & d' & Hload' & Hd')].
  - left. congruence.
  - right. split; [congruence|]. eauto.
  - right. split; [done|]. exists d. split; [done|]. congruence.
  - congruence.
Qed.

Lemma no_imports_loads_from h w w' : no_imports w w' -> loads_from h w w'.
Proof. intros [_ Hsame] name Hne. left. by apply Hsame. Qed.

Section Loaded.

Context (h : Host).

Lemma store_global_loads_from n v : relates (loads_from h) (store_global n v).
Proof.
  intros w name Hne. left. simpl. by rewrite lookup_insert_ne.
Qed.

Lemma import_module_loads_from name child :
  rsplit_dot name = (Some pkg, child) ->
  relates (loads_from h) (import_module h name).
Proof.
  intros Hsplit w. unfold import_module. simpl.
  destruct (sys_modules w !! name) as [d|] eqn:Hcached; simpl;
    [by intros k Hk; left|].
  destruct (load_module h name) as [d|e] eqn:Hload; simpl;
    [|by intros k Hk; left].
  rewrite Hsplit. intros k Hk. simpl.
  rewrite lookup_insert_ne by done.
  destruct (decide (k = name)) as [->|Hkn].
  - right. split; [done|]. exists d. split; [done|]. apply lookup_insert_eq.
  - left. by rewrite lookup_insert_ne.
Qed.

Lemma bind_names_loads_from name names :
  relates (loads_from h) (bind_names name names).
Proof.
  induction names as [|n rest IH]; simpl.
  - apply relates_ret, _.
  - apply relates_bind; [apply _| |intros v].
    + intros w. unfold import_from_attr.
      destruct (module_dict name w !! n); simpl; reflexivity.
    + apply relates_bind; [apply _|apply store_global_loads_from|by intros _].
Qed.

Lemma import_from_loads_from name child names :
  rsplit_dot name = (Some pkg, child) ->
  relates (loads_from h) (import_from h name names).
Proof.
  intros Hsplit. apply relates_bind; [apply _| |intros _].
  - by eapply import_module_loads_from.
  - apply bind_names_loads_from.
Qed.

Lemma import_as_loads_from name child alias :
  rsplit_dot name = (Some pkg, child) ->
  relates (loads_from h) (import_as h name alias).
Proof.
  intros Hsplit. apply relates_bind; [apply _| |intros _].
  - by eapply import_module_loads_from.
  - apply store_global_loads_from.
Qed.

Lemma import_block_loads_from : relates (loads_from h) (import_block h).
Proof.
  unfold import_block.
  repeat (apply relates_bind;
    [apply _
    |first [eapply import_from_loads_from | eapply import_as_loads_from]; reflexivity
    |intros _]).
  eapply import_from_loads_from; reflexivity.
Qed.

Lemma pyhdk_body_loads_from : relates (loads_from h) (pyhdk_body h).
Proof.
  unfold pyhdk_body.
  apply relates_bind; [apply _| |intros _].
  { eapply relates_weaken; [|apply platform_setup_no_imports].
    apply no_imports_loads_from. }
  apply relates_bind; [apply _|apply import_block_loads_from|intros _].
  apply relates_bind; [apply _| |intros _].
  { eapply relates_weaken; [|apply restore_flags_no_imports].
    apply no_imports_loads_from. }
  eapply relates_weaken; [|apply set_version_no_imports].
  apply no_imports_loads_from.
Qed.

(** After a run of the body that succeeded from a state with no engine
    module registered, each engine module holds what its code returned. *)
Lemma pyhdk_body_engine_loaded w u w' :
  Forall (fun name => sys_modules w !! name = None) engine_modules ->
  pyhdk_body h w = (Ok u, w') ->
  engine_loaded h w'.
Proof.
  intros Hnone H.
  pose proof (relates_run _ _ _ _ _ pyhdk_body_loads_from H) as Hloads.
  pose proof (pyhdk_body_exports h _ _ _ H) as Hexp.
  apply Forall_forall. intros name Hname.
  pose proof (proj1 (Forall_forall _ _) Hnone _ Hname) as Hn.
  pose proof (proj1 (Forall_forall _ _) engine_modules_ne_pkg _ Hname) as Hne.
  destruct (Hloads name Hne) as [Hsame|(_ & d & Hload & Hd)]; [|eauto].
  exfalso. rewrite Hn in Hsame.
  assert (exists ep, ep ∈ entry_points /\ ep.1.2 = name) as ([[n m] a] & Hep & Hm).
  { revert Hname. unfold engine_modules, entry_points. set_unfold.
    intros Hname.
    repeat (destruct Hname as [->|Hname];
            [eexists (_, _, _); split; [|reflexivity]; simpl; tauto|]).
    done. }
  simpl in Hm. subst m.
  pose proof (proj1 (Forall_forall _ _) Hexp _ Hep) as He.
  destruct a as [a|]; simpl in He.
  - destruct He as (d & v & Hd & _). congruence.
  - destruct He as [[d Hd] _]. congruence.
Qed.

End Loaded.

(** ** The scenario of the test *)

Lemma getattr_global w n v :
  globals w !! n = Some v -> getattr w (VModule pkg) n = Ok v.
Proof.
  unfold globals, module_dict, getattr.
  destruct (sys_modules w !! pkg) as [d|]; simpl; [by intros ->|done].
Qed.

Lemma getattr_module w m d n v :
  sys_modules w !! m = Some d -> d !! n = Some v -> getattr w (VModule m) n = Ok v.
Proof. unfold getattr. by intros -> ->. Qed.

Lemma call_entry_ok {A} name (result : A) :
  Engine.call_entry name (Engine.entry name) result = Ok result.
Proof. unfold Engine.call_entry. by rewrite decide_True. Qed.

(** What the test finds in the package once [import pyhdk] has succeeded in a
    process that had none of its modules registered. *)
Lemma engine_namespace w w' :
  Forall (fun name => sys_modules w !! name = None) (pkg :: engine_modules) ->
  import_pyhdk Engine.host w = (Ok tt, w') ->
  (forall n, n ∈ ["buildConfig"; "Executor"] ->
             getattr w' TestSql.pyhdk n = Ok (Engine.entry n)) /\
  getattr w' TestSql.pyhdk "storage" = Ok (VModule "pyhdk.storage") /\
  getattr w' TestSql.pyhdk "sql" = Ok (VModule "pyhdk.sql") /\
  (forall n, n ∈ ["ArrowStorage"; "DataMgr"; "TableOptions"] ->
             getattr w' (VModule "pyhdk.storage") n = Ok (Engine.entry n)) /\
  (forall n, n ∈ ["Calcite"; "RelAlgExecutor"] ->
             getattr w' (VModule "pyhdk.sql") n = Ok (Engine.entry n)).
Proof.
  intros Hnone H.
  apply Forall_cons_1 in Hnone as [Hnew Hnone].
  apply import_pyhdk_first_ok in H; [|done].
  assert (engine_loaded Engine.host w') as Hloaded.
  { eapply pyhdk_body_engine_loaded; [|exact H].
    apply Forall_forall. intros name Hname. simpl.
    rewrite lookup_insert_ne;
      [|intros <-; by apply (proj1 (Forall_forall _ _) engine_modules_ne_pkg pkg)].
    by apply (proj1 (Forall_forall _ _) Hnone). }
  pose proof (pyhdk_body_exports _ _ _ _ H) as Hexp.
  assert (forall n m a,
            (n, m, Some a) ∈ entry_points -> m ∈ engine_modules ->
            forall d, Engine.load m = Ok d -> d !! a = Some (Engine.entry n) ->
            getattr w' TestSql.pyhdk n = Ok (Engine.entry n)) as Hattr.
  { intros n m a Hep Hm d Hload Ha.
    destruct (proj1 (Forall_forall _ _) Hexp _ Hep) as (d1 & v & Hd1 & Hv & Hg).
    destruct (proj1 (Forall_forall _ _) Hloaded _ Hm) as (d2 & Hload2 & Hd2).
    simpl in Hload2. apply getattr_global.
    assert (d1 = d) as -> by congruence. congruence. }
  assert (forall m n,
            m ∈ engine_modules ->
            forall d, Engine.load m = Ok d -> d !! n = Some (Engine.entry n) ->
            getattr w' (VModule m) n = Ok (Engine.entry n)) as Hsub.
  { intros m n Hm d Hload Hn.
    destruct (proj1 (Forall_forall _ _) Hloaded _ Hm) as (d2 & Hload2 & Hd2).
    simpl in Hload2. eapply getattr_module; [exact Hd2|]. congruence. }
  assert (forall n m, (n, m, None) ∈ entry_points ->
            getattr w' TestSql.pyhdk n = Ok (VModule m)) as Hmod.
  { intros n m Hep.
    destruct (proj1 (Forall_forall _ _) Hexp _ Hep) as [_ Hg].
    by apply getattr_global. }
  repeat split.
  - intros n Hn. set_unfold in Hn. destruct Hn as [->|[->|[]]].
    + by apply (Hattr "buildConfig" "pyhdk._common" "buildConfig"
                  ltac:(closed_names) ltac:(closed_names) _ eq_refl).
    + by apply (Hattr "Executor" "pyhdk._execute" "Executor"
                  ltac:(closed_names) ltac:(closed_names) _ eq_refl).
  - apply Hmod. closed_names.
  - apply Hmod. closed_names.
  - intros n Hn. set_unfold in Hn.
    destruct Hn as [->|[->|[->|[]]]];
      by apply (Hsub "pyhdk.storage" _ ltac:(closed_names) _ eq_refl).
  - intros n Hn. set_unfold in Hn.
    destruct Hn as [->|[->|[]]];
      by apply (Hsub "pyhdk.sql" _ ltac:(closed_names) _ eq_refl).
Qed.

Lemma setup_class_ok w w' at_ :
  Forall (fun name => sys_modules w !! name = None) (pkg :: engine_modules) ->
  import_pyhdk Engine.host w = (Ok tt, w') ->
  TestSql.setup_class w' at_ = Ok (fixture_of at_).
Proof.
  intros Hnone H.
  destruct (engine_namespace w w' Hnone H) as (Hpkg & Hstorage & Hsql & Hs & Hq).
  unfold TestSql.setup_class.
  rewrite (Hpkg "buildConfig"), (Hpkg "Executor"), Hstorage, Hsql by closed_names.
  cbn [rbind].
  rewrite (Hs "ArrowStorage"), (Hs "DataMgr"), (Hs "TableOptions"), (Hq "Calcite")
    by closed_names.
  cbn [rbind]. rewrite !call_entry_ok. cbn [rbind]. reflexivity.
Qed.

Lemma execute_sql_ok w w' at_ sql ra df :
  Forall (fun name => sys_modules w !! name = None) (pkg :: engine_modules) ->
  import_pyhdk Engine.host w = (Ok tt, w') ->
  Engine.parse (Engine.words sql) = Some ra ->
  Engine.scanned ra = "test" ->
  Engine.eval (Engine.mkStorage 1 (<["test" := at_]> ∅)) ra = Some df ->
  TestSql.execute_sql w' (fixture_of at_) sql = Ok df.
Proof.
  intros Hnone H Hparse Hscan Heval.
  destruct (engine_namespace w w' Hnone H) as (_ & _ & Hsql & _ & Hq).
  unfold TestSql.execute_sql, Engine.process. rewrite Hparse, Hscan.
  cbn [fixture_of TestSql.storage Engine.tables].
  rewrite lookup_insert_eq. cbn [rbind].
  rewrite Hsql. cbn [rbind]. rewrite (Hq "RelAlgExecutor") by closed_names.
  cbn [rbind]. rewrite call_entry_ok. cbn [rbind].
  unfold Engine.execute.
  cbn [Engine.rae_storage Engine.rae_data_mgr Engine.rae_ra TestSql.storage
       TestSql.data_mgr Engine.schema_id Engine.providers].
  rewrite decide_True by set_solver. by rewrite Heval.
Qed.

(** The other tests of the file that need no option of the executor pass as
    well. *)
Lemma other_tests_pass w w' cls :
  Forall (fun name => sys_modules w !! name = None) (pkg :: engine_modules) ->
  import_pyhdk Engine.host w = (Ok tt, w') ->
  TestSql.setup_class w' TestSql.test_table = Ok cls ->
  TestSql.test_simple_projection w' cls = Ok true /\
  TestSql.test_simple_filter w' cls = Ok true /\
  TestSql.test_storage_exceptions w' cls = Ok true.
Proof.
  intros Hnone H Hcls.
  rewrite (setup_class_ok _ _ _ Hnone H) in Hcls. injection Hcls as <-.
  destruct (engine_namespace w w' Hnone H) as (_ & Hstorage & _ & Hs & _).
  repeat split.
  - unfold TestSql.test_simple_projection.
    by rewrite (execute_sql_ok _ _ TestSql.test_table "SELECT * FROM test;"
                  _ _ Hnone H eq_refl eq_refl eq_refl).
  - unfold TestSql.test_simple_filter.
    by rewrite (execute_sql_ok _ _ TestSql.test_table
                  "SELECT COUNT(*) FROM test WHERE a < 3;"
                  _ _ Hnone H eq_refl eq_refl eq_refl).
  - unfold TestSql.test_storage_exceptions.
    rewrite Hstorage. cbn [rbind]. rewrite (Hs "TableOptions") by closed_names.
    cbn [rbind]. by rewrite call_entry_ok.
Qed.

(** ** The module from its first line *)

Section Module.

Context (h : Host).

Lemma import_module_top_frame name :
  rsplit_dot name = (None, name) -> name ≠ pkg ->
  relates (frame []) (import_module h name).
Proof.
  intros Hsplit Hne w. unfold import_module. simpl.
  destruct (sys_modules w !! name) as [d|] eqn:Hcached; simpl.
  { split; simpl; try done.
    exists [EvImport name (dlopenflags w)]. split; [done|].
    by repeat constructor. }
  destruct (load_module h name) as [d|e]; simpl.
  - rewrite Hsplit. split; simpl; try done.
    + exists [EvImport name (dlopenflags w); EvLoad name (dlopenflags w)].
      split; [by rewrite <- app_assoc|]. by repeat constructor.
    + intros k d' Hk Hd'. rewrite lookup_insert_ne; [done|]. intros ->. congruence.
    + intros Hreg. by rewrite lookup_insert_ne.
    + intros n Hn. unfold globals, module_dict. simpl.
      by rewrite lookup_insert_ne.
  - split; simpl; try done.
    exists [EvImport name (dlopenflags w); EvLoad name (dlopenflags w)].
    split; [by rewrite <- app_assoc|]. by repeat constructor.
Qed.

Lemma import_top_frame name :
  rsplit_dot name = (None, name) -> name ≠ pkg ->
  relates (frame [name]) (import_top h name).
Proof.
  intros Hsplit Hne. apply relates_bind; [apply _| |intros _].
  - eapply relates_frame_mono; [by apply import_module_top_frame|names_solver].
  - apply store_global_frame.
Qed.

Lemma std_imports_frame : relates (frame ["sys"; "os"]) (std_imports h).
Proof.
  apply relates_bind; [apply _| |intros _].
  - eapply relates_frame_mono; [by apply import_top_frame|names_solver].
  - eapply relates_frame_mono; [by apply import_top_frame|names_solver].
Qed.

Lemma std_imports_log : logs ["sys"; "os"] (std_imports h).
Proof.
  change ["sys"; "os"] with (["sys"] ++ ["os"]).
  eapply logs_seq;
    [by repeat constructor|by apply import_top_frame
    |apply import_as_log|apply import_as_log].
Qed.

Lemma source_imports_ne_pkg : Forall (fun n => n ≠ pkg) source_imports.
Proof. by repeat constructor. Qed.

Lemma pyhdk_module_log : logs source_imports (pyhdk_module h).
Proof.
  change source_imports with (["sys"; "os"] ++ engine_modules).
  eapply logs_seq;
    [apply engine_modules_ne_pkg|apply std_imports_frame|apply std_imports_log|].
  intros w r w'. apply pyhdk_body_log.
Qed.

Lemma import_pyhdk_module_log w r w' :
  sys_modules w !! pkg = None ->
  import_pyhdk_module h w = (r, w') ->
  import_log source_imports w r w'.
Proof.
  intros Hnew. unfold import_pyhdk_module. rewrite Hnew.
  destruct (pyhdk_module h (register_pkg w)) as [r1 w1] eqn:Hbody. intros H.
  apply pyhdk_module_log in Hbody as (t & Ht & Hpre & Hall & Hsub & Hnone).
  assert (trace w' = trace w1 /\ (r = Ok tt -> r1 = Ok tt)) as [Htr Hr].
  { destruct r1 as [[]|e]; inversion H; subst; by split. }
  exists t. rewrite Htr. repeat split; try done.
  - intros Hok. by apply Hall, Hr.
  - apply Forall_forall. intros name Hname.
    pose proof (proj1 (Forall_forall _ _) Hnone _ Hname) as Hn. simpl in Hn.
    rewrite lookup_insert_ne in Hn; [done|].
    intros <-. by eapply (import_log_names_ne _ pkg source_imports_ne_pkg).
Qed.

(** The log of a run of the body that succeeds on linux. *)
Lemma pyhdk_body_linux_log w u w' :
  platform w = "linux" ->
  pyhdk_body h w = (Ok u, w') ->
  exists t version,
    trace w' =
      trace w ++ [EvGetFlags; EvSetFlags (Z.lor RTLD_LAZY RTLD_GLOBAL)] ++ t ++
      [EvSetFlags (dlopenflags w); EvCall version "str"] /\
    Forall (import_event_at (Z.lor RTLD_LAZY RTLD_GLOBAL)) t /\
    imports_of t = engine_modules.
Proof.
  intros Hp H.
  apply pyhdk_body_ok_inv in H as (w0 & w1 & w2 & H0 & H1 & H2 & H3).
  rewrite platform_setup_linux in H0 by done. inversion H0 as [Hw0]; clear H0.
  pose proof (relates_run _ _ _ _ _ (import_block_frame h) H1) as Hfr.
  destruct (frame_trace _ _ _ Hfr) as (t & Ht & Hall).
  destruct (import_block_log h _ _ _ H1) as (t' & Ht' & _ & Himp & _).
  assert (t' = t) as -> by (eapply app_inv_head; by rewrite <- Ht, <- Ht').
  rewrite (restore_flags_linux _ (dlopenflags w)) in H2.
  - inversion H2 as [Hw2]; clear H2.
    apply set_version_inv in H3
      as [(? & _)|(v & _ & [(e & _ & ? & _)|(s & _ & _ & ->)])]; try discriminate.
    exists t, v. split; [|split; [|by apply Himp]].
    + simpl. rewrite <- Hw2. simpl. rewrite Ht, <- Hw0. simpl.
      by rewrite <- !app_assoc.
    + by rewrite <- Hw0 in Hall.
  - by rewrite (frame_platform _ _ _ Hfr), <- Hw0.
  - rewrite (frame_globals _ _ _ Hfr) by closed_names.
    rewrite <- Hw0. unfold globals, module_dict. simpl.
    rewrite lookup_insert_eq. apply lookup_insert_eq.
Qed.

(** A first import that succeeds is a successful run of the module in the
    newly registered package. *)
Lemma import_pyhdk_module_first_ok w w' :
  sys_modules w !! pkg = None ->
  import_pyhdk_module h w = (Ok tt, w') ->
  pyhdk_module h (register_pkg w) = (Ok tt, w').
Proof.
  intros Hnew. unfold import_pyhdk_module. rewrite Hnew.
  destruct (pyhdk_module h (register_pkg w)) as [[[]|e] w1]; by intros [= <-].
Qed.

(** The globals that a run of the body leaves as they were. *)
Lemma pyhdk_body_globals_frame w u w' n :
  pyhdk_body h w = (Ok u, w') ->
  n ∉ block_names -> n ≠ "__version__" ->
  (n = "prev" -> platform w ≠ "linux") ->
  globals w' !! n = globals w !! n.
Proof.
  intros H Hblock Hver Hprev.
  apply pyhdk_body_ok_inv in H as (w0 & w1 & w2 & H0 & H1 & H2 & H3).
  pose proof (relates_run _ _ _ _ _ (import_block_frame h) H1) as Hfr.
  apply restore_flags_modules in H2.
  apply set_version_inv in H3
    as [(? & _)|(v & _ & [(e & _ & ? & _)|(s & _ & _ & ->)])]; try discriminate.
  rewrite globals_store, lookup_insert_ne by done.
  unfold globals, module_dict. simpl. rewrite H2.
  change (globals w1 !! n = globals w !! n).
  rewrite (frame_globals _ _ _ Hfr) by done.
  destruct (platform_setup_cases h w)
    as [(Hl & Hs)|[(_ & _ & Hs)
       |[(j & _ & _ & [(_ & Hs)|(_ & Hs)])|(_ & _ & Hs)]]];
    rewrite Hs in H0; inversion H0 as [Hw0]; clear H0; try done.
  change (globals (module_setattr pkg "prev" (VInt (dlopenflags w))
                     (log EvGetFlags w)) !! n = globals w !! n).
  rewrite globals_store, lookup_insert_ne; [done|].
  intros <-. by apply Hprev.
Qed.

Lemma pyhdk_module_globals_frame w u w' n :
  pyhdk_module h w = (Ok u, w') ->
  n ∉ "sys" :: "os" :: "__version__" :: block_names ->
  (n = "prev" -> platform w ≠ "linux") ->
  globals w' !! n = globals w !! n.
Proof.
  intros H Hn Hprev. unfold pyhdk_module in H.
  apply bind_ok_inv in H as ([] & w0 & H0 & H).
  pose proof (relates_run _ _ _ _ _ std_imports_frame H0) as Hfr.
  rewrite (pyhdk_body_globals_frame _ _ _ _ H).
  - apply (frame_globals _ _ _ Hfr).
    intros Hin. apply Hn.
    apply elem_of_cons in Hin as [->|Hin]; [by left|]. right.
    apply elem_of_cons in Hin as [->|Hin]; [by left|].
    by apply elem_of_nil in Hin.
  - intros Hin. apply Hn. by do 3 right.
  - intros ->. apply Hn. right; right; by left.
  - by rewrite (frame_platform _ _ _ Hfr).
Qed.

End Module.

(** * The properties of the initializer *)

(** C1.  On linux, whatever the dlopen flag mask was when [import pyhdk]
    started, once the import has completed successfully the mask is again that
    value. *)
Theorem flags_restored_after_import (h : Host) (w w' : World) :
  platform w = "linux" ->
  import_pyhdk h w = (Ok tt, w') ->
  dlopenflags w' = dlopenflags w.
Proof.
  intros Hp. unfold import_pyhdk.
  destruct (sys_modules w !! pkg) as [d|].
  { intros H. by inversion H. }
  destruct (pyhdk_body h (register_pkg w)) as [[u|e] w1] eqn:Hbody; intros H;
    inversion H; subst.
  by apply pyhdk_body_restores in Hbody.
Qed.

Lemma flags_restored_after_import_witness :
  dlopenflags (snd (import_pyhdk demo_host (fresh_world "linux" 2 ∅))) = 2.
Proof.
  apply (flags_restored_after_import demo_host (fresh_world "linux" 2 ∅)).
  - reflexivity.
  - vm_compute. reflexivity.
Defined.

(** C2.  On win32, when [JAVA_HOME] is not in the environment, a first
    [import pyhdk] raises the [RuntimeError] with the message of the source.
    The only thing it has done by then is the membership test on the
    environment: no import statement was reached, so no engine module was
    loaded or registered, and the DLL search path is as it was. *)
Theorem missing_java_home_fails_first (h : Host) (w : World) :
  platform w = "win32" ->
  environ w !! "JAVA_HOME" = None ->
  sys_modules w !! pkg = None ->
  exists w',
    import_pyhdk h w =
      (Raise (RuntimeError
         "HDK engine requires JAVA_HOME environment variable to point to Java runtime location."),
       w') /\
    trace w' = trace w ++ [EvEnvRead "JAVA_HOME"] /\
    sys_modules w' = sys_modules w /\
    dll_dirs w' = dll_dirs w /\
    dlopenflags w' = dlopenflags w.
Proof.
  intros Hp Henv Hnew. eexists. split.
  - unfold import_pyhdk, pyhdk_body. rewrite Hnew.
    erewrite bind_raise; [reflexivity|].
    by apply platform_setup_win32_no_java.
  - simpl. repeat split. by apply delete_insert_id.
Qed.

Lemma missing_java_home_fails_first_witness :
  exists w',
    import_pyhdk demo_host (fresh_world "win32" 2 ∅) =
      (Raise (RuntimeError
         "HDK engine requires JAVA_HOME environment variable to point to Java runtime location."),
       w') /\
    trace w' = [EvEnvRead "JAVA_HOME"] /\
    sys_modules w' = ∅ /\
    dll_dirs w' = [] /\
    dlopenflags w' = 2.
Proof.
  exact (missing_java_home_fails_first demo_host (fresh_world "win32" 2 ∅)
           eq_refl eq_refl eq_refl).
Defined.

(** C3.  On linux, when the import of an engine submodule raises, the
    exception leaves [import pyhdk], the restoring call is never made and the
    mask stays [RTLD_LAZY | RTLD_GLOBAL]: after the reading and the setting of
    the mask the run logs import events only.  So the mask differs from the
    one before the import unless that was the lazy/global value already. *)
Theorem flags_not_restored_when_import_raises (h : Host) (w w1 : World) (e : Exn) :
  platform w = "linux" ->
  sys_modules w !! pkg = None ->
  import_block h (snd (platform_setup h (register_pkg w))) = (Raise e, w1) ->
  import_pyhdk h w = (Raise e, unregister_pkg w1) /\
  dlopenflags (unregister_pkg w1) = Z.lor RTLD_LAZY RTLD_GLOBAL /\
  (dlopenflags w ≠ Z.lor RTLD_LAZY RTLD_GLOBAL ->
   dlopenflags (unregister_pkg w1) ≠ dlopenflags w) /\
  exists t,
    trace (unregister_pkg w1) =
      trace w ++ EvGetFlags :: EvSetFlags (Z.lor RTLD_LAZY RTLD_GLOBAL) :: t /\
    Forall (import_event_at (Z.lor RTLD_LAZY RTLD_GLOBAL)) t.
Proof.
  intros Hp Hnew Hblock.
  assert (platform (register_pkg w) = "linux") as Hp' by done.
  pose proof (platform_setup_linux h _ Hp') as Hsetup.
  rewrite Hsetup in Hblock. simpl in Hblock.
  pose proof (relates_run _ _ _ _ _ (import_block_frame h) Hblock) as Hfr.
  assert (dlopenflags w1 = Z.lor RTLD_LAZY RTLD_GLOBAL) as Hflags
    by apply (frame_flags _ _ _ Hfr).
  split; [|split; [exact Hflags|split]].
  - unfold import_pyhdk, pyhdk_body. rewrite Hnew.
    rewrite (bind_ok _ _ _ _ _ Hsetup). by rewrite (bind_raise _ _ _ _ _ Hblock).
  - intros Hne. simpl. congruence.
  - destruct (frame_trace _ _ _ Hfr) as (t & Ht & Hall). exists t.
    split; [|exact Hall]. simpl. rewrite Ht. simpl.
    by rewrite <- !app_assoc.
Qed.

Lemma flags_not_restored_when_import_raises_witness :
  exists w',
    import_pyhdk broken_sql_host (fresh_world "linux" 2 ∅) =
      (Raise (ImportError "libjvm.so: cannot open shared object file"), w') /\
    dlopenflags w' = 257.
Proof.
  eexists. 
  refine (let H := flags_not_restored_when_import_raises broken_sql_host
                     (fresh_world "linux" 2 ∅) _ _ eq_refl eq_refl _ in
          conj (proj1 H) (proj1 (proj2 H))).
  vm_compute. reflexivity.
Defined.

(** C4.  On linux the platform branch replaces the mask by exactly
    [RTLD_LAZY | RTLD_GLOBAL] (257), whatever it was before, and the mask has
    that value when the import block starts, at every import and load inside
    it, and when the block ends, whether it ends normally or by an
    exception. *)
Theorem flags_lazy_global_during_imports (h : Host) (w : World) :
  platform w = "linux" ->
  let w0 := snd (platform_setup h w) in
  Z.lor RTLD_LAZY RTLD_GLOBAL = 257 /\
  dlopenflags w0 = Z.lor RTLD_LAZY RTLD_GLOBAL /\
  forall r w1, import_block h w0 = (r, w1) ->
    dlopenflags w1 = Z.lor RTLD_LAZY RTLD_GLOBAL /\
    exists t, trace w1 = trace w0 ++ t /\
              Forall (import_event_at (Z.lor RTLD_LAZY RTLD_GLOBAL)) t.
Proof.
  intros Hp. rewrite platform_setup_linux by done. simpl.
  split; [done|]. split; [done|].
  intros r w1 Hblock.
  pose proof (relates_run _ _ _ _ _ (import_block_frame h) Hblock) as Hfr.
  split; [by rewrite (frame_flags _ _ _ Hfr)|].
  exact (frame_trace _ _ _ Hfr).
Qed.

Lemma flags_lazy_global_during_imports_witness :
  dlopenflags (snd (platform_setup demo_host (fresh_world "linux" 2 ∅))) = 257.
Proof.
  apply (flags_lazy_global_during_imports demo_host (fresh_world "linux" 2 ∅)).
  reflexivity.
Defined.

(** C5, as amended.  On win32, when [JAVA_HOME] is set to [java_home], a
    first [import pyhdk] looks [JAVA_HOME] up and calls
    [os.add_dll_directory] on [os.path.join(java_home, "bin", "server")], and
    it neither reads nor sets the dlopen flag mask: the rest of its log holds
    no call of the platform branch.  When the system accepts the directory,
    exactly that one directory has been added to the DLL search path, however
    the import ends.  When it does not, the import ends in the [OSError] of
    the call and the search path is as before. *)
Theorem java_home_extends_dll_path (h : Host) (w w' : World) (java_home : string)
    (r : Result unit) :
  platform w = "win32" ->
  environ w !! "JAVA_HOME" = Some java_home ->
  sys_modules w !! pkg = None ->
  import_pyhdk h w = (r, w') ->
  let dir := path_join h java_home ["bin"; "server"] in
  (if dll_directory_ok h dir
   then dll_dirs w' = dll_dirs w ++ [dir]
   else r = Raise (OSError dir) /\ dll_dirs w' = dll_dirs w) /\
  dlopenflags w' = dlopenflags w /\
  exists t,
    trace w' =
      trace w ++ EvEnvRead "JAVA_HOME" :: EvEnvRead "JAVA_HOME" :: EvAddDll dir :: t /\
    Forall (fun e => platform_event e = false) t.
Proof.
  intros Hp Henv Hnew H dir.
  assert (platform (register_pkg w) = "win32") as Hp' by done.
  assert (environ (register_pkg w) !! "JAVA_HOME" = Some java_home) as Henv' by done.
  unfold import_pyhdk, pyhdk_body in H. rewrite Hnew in H.
  destruct (dll_directory_ok h dir) eqn:Hok.
  - pose proof (platform_setup_win32_java h _ _ Hp' Henv' Hok) as Hsetup.
    cbv zeta in Hsetup. fold dir in Hsetup.
    rewrite (bind_ok _ _ _ _ _ Hsetup) in H.
    match type of H with
    | context [bind ?m ?f ?w0] => destruct (bind m f w0) as [r1 w1] eqn:Hrest
    end.
    apply after_setup_quiet in Hrest; [|simpl; by rewrite Hp].
    destruct Hrest as [_ Hf _ Hd (t & Ht & Hall)]. simpl in *.
    assert (dll_dirs w' = dll_dirs w1 /\ dlopenflags w' = dlopenflags w1 /\
            trace w' = trace w1) as (-> & -> & ->)
      by (destruct r1; inversion H; done).
    split; [done|]. split; [done|]. exists t. split; [|done].
    rewrite Ht. by rewrite <- !app_assoc.
  - pose proof (platform_setup_win32_rejected h _ _ Hp' Henv' Hok) as Hsetup.
    fold dir in Hsetup.
    rewrite (bind_raise _ _ _ _ _ Hsetup) in H. inversion H; subst. simpl.
    split; [done|]. split; [done|]. exists []. split; [|done].
    by rewrite <- !app_assoc.
Qed.

Lemma java_home_extends_dll_path_witness :
  dll_dirs (snd (import_pyhdk demo_host
                   (fresh_world "win32" 2 (<["JAVA_HOME" := "C:\jdk"]> ∅)))) =
    ["C:\jdk\bin\server"].
Proof.
  refine (proj1 (java_home_extends_dll_path demo_host
                   (fresh_world "win32" 2 (<["JAVA_HOME" := "C:\jdk"]> ∅))
                   (snd (import_pyhdk demo_host
                           (fresh_world "win32" 2 (<["JAVA_HOME" := "C:\jdk"]> ∅))))
                   "C:\jdk" (Ok tt) eq_refl eq_refl eq_refl _)).
  vm_compute. reflexivity.
Defined.

(** C5, as the specification has it, fails where the Java runtime has no
    server directory: on win32 with [JAVA_HOME] set, over a system that
    rejects the directory, the import raises [OSError] and the DLL search path
    is not extended. *)
Lemma java_home_without_server_directory :
  let w := fresh_world "win32" 2 (<["JAVA_HOME" := "C:\jdk"]> ∅) in
  platform w = "win32" /\
  environ w !! "JAVA_HOME" = Some "C:\jdk" /\
  sys_modules w !! pkg = None /\
  fst (import_pyhdk no_jdk_host w) = Raise (OSError "C:\jdk\bin\server") /\
  dll_dirs (snd (import_pyhdk no_jdk_host w)) = [] /\
  dll_dirs (snd (import_pyhdk no_jdk_host w)) ≠
    dll_dirs w ++ [path_join no_jdk_host "C:\jdk" ["bin"; "server"]].
Proof.
  cbv zeta. repeat split; try (vm_compute; reflexivity).
  vm_compute. discriminate.
Qed.

(** C6.  On a platform that is neither linux nor win32, [import pyhdk],
    however it ends, leaves the dlopen flag mask, the environment and the DLL
    search path untouched, and logs nothing but imports and loads of engine
    modules and calls into the engine: the mask is not read or set,
    [os.environ] is not consulted, no DLL directory is added. *)
Theorem other_platform_no_setup (h : Host) (w w' : World) (r : Result unit) :
  platform w ≠ "linux" ->
  platform w ≠ "win32" ->
  import_pyhdk h w = (r, w') ->
  dlopenflags w' = dlopenflags w /\
  environ w' = environ w /\
  dll_dirs w' = dll_dirs w /\
  exists t, trace w' = trace w ++ t /\ Forall (fun e => platform_event e = false) t.
Proof.
  intros Hl Hw H.
  assert (quiet w w') as [_ ? ? ? ?]; [|done].
  unfold import_pyhdk, pyhdk_body in H.
  destruct (sys_modules w !! pkg) as [d|].
  { inversion H. reflexivity. }
  rewrite (bind_ok _ _ _ tt (register_pkg w)) in H
    by (by apply platform_setup_other).
  match type of H with
  | context [bind ?m ?f ?w0] => destruct (bind m f w0) as [r1 w1] eqn:Hrest
  end.
  apply after_setup_quiet in Hrest; [|done].
  apply quiet_register in Hrest.
  destruct r1; inversion H; subst; [done|by apply quiet_unregister].
Qed.

Lemma other_platform_no_setup_witness :
  let w' := snd (import_pyhdk demo_host (fresh_world "darwin" 2 ∅)) in
  dlopenflags w' = 2 /\ environ w' = ∅ /\ dll_dirs w' = [] /\
  exists t, trace w' = [] ++ t /\ Forall (fun e => platform_event e = false) t.
Proof.
  apply (other_platform_no_setup demo_host (fresh_world "darwin" 2 ∅) _ (Ok tt));
    [discriminate|discriminate|].
  vm_compute. reflexivity.
Defined.

(** C7.  After a first [import pyhdk] that succeeds, the package is
    registered and each of the nine entry points of lines 23-29 is a global of
    the package: [TypeInfo], [buildConfig], [initLogger], [Executor], [init],
    [QueryBuilder] and [Version] are the very values held under these names by
    the registered engine modules [pyhdk._common], [pyhdk._execute],
    [pyhdk.hdk], [pyhdk._builder] and [pyhdk.version]; [sql] and [storage] are
    the registered modules [pyhdk.sql] and [pyhdk.storage] themselves. *)
Theorem entry_points_exported (h : Host) (w w' : World) :
  sys_modules w !! pkg = None ->
  import_pyhdk h w = (Ok tt, w') ->
  is_Some (sys_modules w' !! pkg) /\
  Forall (exported w') entry_points.
Proof.
  intros Hnew H. apply import_pyhdk_first_ok in H; [|done]. split.
  - eapply pyhdk_body_registered; [apply register_pkg_registered|exact H].
  - by eapply pyhdk_body_exports.
Qed.

Lemma entry_points_exported_witness :
  Forall (exported (snd (import_pyhdk demo_host (fresh_world "linux" 2 ∅))))
         entry_points.
Proof.
  apply (entry_points_exported demo_host (fresh_world "linux" 2 ∅)).
  - reflexivity.
  - vm_compute. reflexivity.
Defined.

(** C8.  After a first [import pyhdk] that succeeded, a second
    [import pyhdk] raises nothing and changes nothing at all: the package is
    found in [sys.modules] and its body is not run.  If the body is run a
    second time all the same ([importlib.reload]), it succeeds again and
    leaves the dlopen flag mask and the whole of [sys.modules] as they were,
    hence the globals of the package, its entry points and [__version__]
    among them. *)
Theorem reimport_idempotent (h : Host) (w w1 : World) :
  sys_modules w !! pkg = None ->
  import_pyhdk h w = (Ok tt, w1) ->
  import_pyhdk h w1 = (Ok tt, w1) /\
  exists w2,
    reload_pyhdk h w1 = (Ok tt, w2) /\
    dlopenflags w2 = dlopenflags w1 /\
    sys_modules w2 = sys_modules w1 /\
    globals w2 = globals w1 /\
    Forall (exported w2) entry_points.
Proof.
  intros Hnew H. apply import_pyhdk_first_ok in H; [|done].
  pose proof (pyhdk_body_initialised h _ _ _ (register_pkg_registered w) H) as Hinit.
  destruct (init_registered _ _ Hinit) as [d Hd].
  split.
  { unfold import_pyhdk. by rewrite Hd. }
  destruct (pyhdk_body_again h _ Hinit) as (w2 & Hbody & Hsm & Hflags).
  exists w2. split; [|split; [done|split; [done|split]]].
  - unfold reload_pyhdk. by rewrite Hd.
  - unfold globals, module_dict. by rewrite Hsm.
  - eapply Forall_impl; [apply (init_exports _ _ Hinit)|].
    intros ep. by apply exported_same_modules.
Qed.

Lemma reimport_idempotent_witness :
  let w1 := snd (import_pyhdk demo_host (fresh_world "linux" 2 ∅)) in
  import_pyhdk demo_host w1 = (Ok tt, w1).
Proof.
  refine (proj1 (reimport_idempotent demo_host (fresh_world "linux" 2 ∅) _ eq_refl _)).
  vm_compute. reflexivity.
Defined.

(** C9.  In the scenario of the test, run in a process in which [import pyhdk]
    has just succeeded over the engine: a configuration is built with
    [pyhdk.buildConfig], a columnar storage is made and registered as data
    provider, and a table of two integer columns and three rows is imported as
    [test], all through the names that the package exports.  The query
    "SELECT COUNT(*) FROM test;" then goes through [Calcite.process] and
    [pyhdk.sql.RelAlgExecutor(...).execute()] without an exception, and its
    result has one row and one column, named [EXPR$0], whose value is 3,
    whatever the names of the columns and the six integers are. *)
Theorem simple_count_is_three (w w' : World) (a b : string)
    (x1 x2 x3 y1 y2 y3 : Z) :
  Forall (fun name => sys_modules w !! name = None) (pkg :: engine_modules) ->
  import_pyhdk Engine.host w = (Ok tt, w') ->
  exists cls df,
    TestSql.setup_class w' [(a, [x1; x2; x3]); (b, [y1; y2; y3])] = Ok cls /\
    TestSql.execute_sql w' cls "SELECT COUNT(*) FROM test;" = Ok df /\
    TestSql.shape df = (1%nat, 1%nat) /\
    Engine.column df "EXPR$0" = Some [3] /\
    TestSql.test_simple_count w' cls = Ok true.
Proof.
  intros Hnone H.
  pose proof (execute_sql_ok w w' [(a, [x1; x2; x3]); (b, [y1; y2; y3])]
                "SELECT COUNT(*) FROM test;"
                (Engine.CountStar (Engine.Scan "test")) [("EXPR$0", [3])]
                Hnone H eq_refl eq_refl) as Hrun.
  eexists. exists [("EXPR$0", [3])].
  split; [by eapply setup_class_ok|].
  assert (TestSql.execute_sql w' (fixture_of [(a, [x1; x2; x3]); (b, [y1; y2; y3])])
            "SELECT COUNT(*) FROM test;" = Ok [("EXPR$0", [3])]) as Hdf.
  { apply Hrun. cbn [Engine.eval Engine.tables]. by rewrite lookup_insert_eq. }
  split; [done|]. split; [done|]. split; [done|].
  unfold TestSql.test_simple_count. by rewrite Hdf.
Qed.

Lemma simple_count_is_three_witness :
  let w' := snd (import_pyhdk Engine.host (fresh_world "linux" 2 ∅)) in
  exists cls df,
    TestSql.setup_class w' TestSql.test_table = Ok cls /\
    TestSql.execute_sql w' cls "SELECT COUNT(*) FROM test;" = Ok df /\
    TestSql.shape df = (1%nat, 1%nat) /\
    Engine.column df "EXPR$0" = Some [3] /\
    TestSql.test_simple_count w' cls = Ok true.
Proof.
  apply (simple_count_is_three (fresh_world "linux" 2 ∅) _ "a" "b" 1 2 3 10 20 30).
  - repeat apply List.Forall_cons; try apply List.Forall_nil; reflexivity.
  - vm_compute. reflexivity.
Defined.




(** * Further properties of the initializer *)

(** X1.  Whatever the platform and however a first [import pyhdk] ends, the
    import statements it has run are the first ones of the module, in the
    order of the source: [sys] and [os] of lines 6-7, then the engine modules
    of lines 23-29; when it succeeds it has run all nine. *)
Theorem imports_follow_source_order (h : Host) (w w' : World) (r : Result unit) :
  sys_modules w !! pkg = None ->
  import_pyhdk_module h w = (r, w') ->
  exists t,
    trace w' = trace w ++ t /\
    imports_of t `prefix_of` source_imports /\
    (r = Ok tt -> imports_of t = source_imports).
Proof.
  intros Hnew H.
  destruct (import_pyhdk_module_log h _ _ _ Hnew H) as (t & Ht & Hpre & Hall & _).
  by exists t.
Qed.

Lemma imports_follow_source_order_witness :
  exists t,
    trace (snd (import_pyhdk_module demo_host (running_world "darwin" 2 ∅))) = [] ++ t /\
    imports_of t `prefix_of` source_imports /\
    (Ok tt = Ok tt -> imports_of t = source_imports).
Proof.
  apply (imports_follow_source_order demo_host (running_world "darwin" 2 ∅)).
  - reflexivity.
  - vm_compute. reflexivity.
Defined.

(** X2.  During a first [import pyhdk] the code of an engine module runs
    only if the module was not registered in [sys.modules] before, and runs at
    most once: the modules loaded are a duplicate-free selection, in source
    order, of the seven engine modules, none of them registered at the
    start. *)
Theorem registered_modules_not_reloaded (h : Host) (w w' : World) (r : Result unit) :
  sys_modules w !! pkg = None ->
  import_pyhdk h w = (r, w') ->
  exists t,
    trace w' = trace w ++ t /\
    loads_of t `sublist_of` engine_modules /\
    NoDup (loads_of t) /\
    Forall (fun name => sys_modules w !! name = None) (loads_of t).
Proof.
  intros Hnew H.
  destruct (import_pyhdk_log h _ _ _ Hnew H) as (t & Ht & Hpre & _ & Hsub & Hnone).
  assert (loads_of t `sublist_of` engine_modules) as Hsub'.
  { etransitivity; [exact Hsub|]. by apply prefix_is_sublist. }
  exists t. repeat split; try done.
  eapply sublist_NoDup; [apply engine_modules_NoDup|done].
Qed.

Lemma registered_modules_not_reloaded_witness :
  let w := snd (import_pyhdk broken_sql_host (fresh_world "linux" 2 ∅)) in
  exists t,
    trace (snd (import_pyhdk demo_host w)) = trace w ++ t /\
    loads_of t `sublist_of` engine_modules /\
    NoDup (loads_of t) /\
    Forall (fun name => sys_modules w !! name = None) (loads_of t).
Proof.
  apply (registered_modules_not_reloaded demo_host
           (snd (import_pyhdk broken_sql_host (fresh_world "linux" 2 ∅))) _ (Ok tt)).
  - vm_compute. reflexivity.
  - vm_compute. reflexivity.
Defined.

(** X3.  An exception that leaves a first [import pyhdk] is one of five: the
    [RuntimeError] of line 18, on win32 without [JAVA_HOME]; the [OSError] of
    [os.add_dll_directory] on line 21, on win32 when the system rejects the
    server directory; the exception that the code of one of the seven engine
    modules raised, as it is; the [ImportError] for a name of lines 23-29 that
    its engine module lacks; the exception that [Version.str()] raised, as it
    is.  The wrapper raises no [KeyError], [NameError] or [TypeError] of its
    own. *)
Theorem exceptions_of_import (h : Host) (w w' : World) (e : Exn) :
  sys_modules w !! pkg = None ->
  import_pyhdk h w = (Raise e, w') ->
  (platform w = "win32" /\ environ w !! "JAVA_HOME" = None /\
   e = RuntimeError
     "HDK engine requires JAVA_HOME environment variable to point to Java runtime location.") \/
  (exists java_home,
     platform w = "win32" /\ environ w !! "JAVA_HOME" = Some java_home /\
     dll_directory_ok h (path_join h java_home ["bin"; "server"]) = false /\
     e = OSError (path_join h java_home ["bin"; "server"])) \/
  (exists name, name ∈ engine_modules /\ load_module h name = Raise e) \/
  (exists n m, n ∈ imported_names /\ m ∈ engine_modules /\ e = ImportErrorName n m) \/
  (exists version, call_method h version "str" = Raise e).
Proof.
  intros Hnew. unfold import_pyhdk. rewrite Hnew.
  destruct (pyhdk_body h (register_pkg w)) as [[a|e0] w1] eqn:Hbody; [done|].
  intros [= -> _]. by apply pyhdk_body_raise in Hbody.
Qed.

Lemma exceptions_of_import_witness :
  let w := fresh_world "win32" 2 (<["JAVA_HOME" := "C:\jdk"]> ∅) in
  let e := OSError "C:\jdk\bin\server" in
  (platform w = "win32" /\ environ w !! "JAVA_HOME" = None /\
   e = RuntimeError
     "HDK engine requires JAVA_HOME environment variable to point to Java runtime location.") \/
  (exists java_home,
     platform w = "win32" /\ environ w !! "JAVA_HOME" = Some java_home /\
     dll_directory_ok no_jdk_host (path_join no_jdk_host java_home ["bin"; "server"])
       = false /\
     e = OSError (path_join no_jdk_host java_home ["bin"; "server"])) \/
  (exists name, name ∈ engine_modules /\ load_module no_jdk_host name = Raise e) \/
  (exists n m, n ∈ imported_names /\ m ∈ engine_modules /\ e = ImportErrorName n m) \/
  (exists version, call_method no_jdk_host version "str" = Raise e).
Proof.
  apply (exceptions_of_import no_jdk_host
           (fresh_world "win32" 2 (<["JAVA_HOME" := "C:\jdk"]> ∅))
           (snd (import_pyhdk no_jdk_host
                   (fresh_world "win32" 2 (<["JAVA_HOME" := "C:\jdk"]> ∅))))).
  - reflexivity.
  - vm_compute. reflexivity.
Defined.

(** X4.  On linux, once the import block has run to its end the mask is set
    back before anything else happens: a first [import pyhdk] then leaves the
    mask as it found it however it ends, also when [Version.str()] raises on
    line 34. *)
Theorem mask_restored_once_imports_done (h : Host) (w w1 w' : World)
    (r : Result unit) :
  platform w = "linux" ->
  sys_modules w !! pkg = None ->
  import_block h (snd (platform_setup h (register_pkg w))) = (Ok tt, w1) ->
  import_pyhdk h w = (r, w') ->
  dlopenflags w' = dlopenflags w.
Proof.
  intros Hp Hnew Hblock H.
  assert (platform (register_pkg w) = "linux") as Hp' by done.
  pose proof (platform_setup_linux h _ Hp') as Hsetup.
  rewrite Hsetup in Hblock. simpl in Hblock.
  pose proof (relates_run _ _ _ _ _ (import_block_frame h) Hblock) as Hfr.
  assert (restore_flags w1 =
          (Ok tt, set_dlopenflags (dlopenflags w) (log (EvSetFlags (dlopenflags w)) w1)))
    as Hrestore.
  { apply restore_flags_linux.
    - by rewrite (frame_platform _ _ _ Hfr).
    - rewrite (frame_globals _ _ _ Hfr) by closed_names.
      unfold globals, module_dict. simpl.
      rewrite lookup_insert_eq. apply lookup_insert_eq. }
  unfold import_pyhdk, pyhdk_body in H. rewrite Hnew in H.
  rewrite (bind_ok _ _ _ _ _ Hsetup), (bind_ok _ _ _ _ _ Hblock),
    (bind_ok _ _ _ _ _ Hrestore) in H.
  match type of H with
  | context [set_version h ?w2] => destruct (set_version h w2) as [r2 w3] eqn:Hver
  end.
  apply set_version_inv in Hver
    as [(-> & -> & _)|(v & _ & [(e & _ & -> & ->)|(s & _ & -> & ->)])];
    by inversion H.
Qed.

Lemma mask_restored_once_imports_done_witness :
  import_pyhdk broken_version_host (fresh_world "linux" 2 ∅) =
    (Raise (EngineError "str"),
     snd (import_pyhdk broken_version_host (fresh_world "linux" 2 ∅))) /\
  dlopenflags (snd (import_pyhdk broken_version_host (fresh_world "linux" 2 ∅))) = 2.
Proof.
  split; [vm_compute; reflexivity|].
  apply (mask_restored_once_imports_done broken_version_host
           (fresh_world "linux" 2 ∅)
           (snd (import_block broken_version_host
                   (snd (platform_setup broken_version_host
                           (register_pkg (fresh_world "linux" 2 ∅))))))
           _ (Raise (EngineError "str"))).
  - reflexivity.
  - reflexivity.
  - vm_compute. reflexivity.
  - vm_compute. reflexivity.
Defined.

(** X5.  On linux the whole log of a first [import pyhdk] that succeeds is:
    [sys] and [os] are imported under the mask of the process, the mask is
    read, the mask is set to [RTLD_LAZY | RTLD_GLOBAL], the seven imports of
    the engine modules run in order, the mask is set to the value read,
    [Version.str()] is called.  So the mask is written exactly twice, the
    second time after the last import and before the version is computed. *)
Theorem linux_import_log (h : Host) (w w' : World) :
  platform w = "linux" ->
  sys_modules w !! pkg = None ->
  import_pyhdk_module h w = (Ok tt, w') ->
  exists t0 t version,
    trace w' =
      trace w ++ t0 ++ [EvGetFlags; EvSetFlags (Z.lor RTLD_LAZY RTLD_GLOBAL)] ++ t ++
      [EvSetFlags (dlopenflags w); EvCall version "str"] /\
    imports_of t0 = ["sys"; "os"] /\
    Forall (import_event_at (dlopenflags w)) t0 /\
    Forall (import_event_at (Z.lor RTLD_LAZY RTLD_GLOBAL)) t /\
    imports_of t = engine_modules.
Proof.
  intros Hp Hnew H. apply import_pyhdk_module_first_ok in H; [|done].
  unfold pyhdk_module in H. apply bind_ok_inv in H as ([] & ws & Hs & H).
  pose proof (relates_run _ _ _ _ _ (std_imports_frame h) Hs) as Hfr.
  destruct (frame_trace _ _ _ Hfr) as (t0 & Ht0 & Hall0).
  destruct (std_imports_log h _ _ _ Hs) as (t0' & Ht0' & _ & Himp0 & _).
  assert (t0' = t0) as -> by (eapply app_inv_head; by rewrite <- Ht0, <- Ht0').
  destruct (pyhdk_body_linux_log h ws tt w') as (t & version & Ht & Hall & Himp);
    [by rewrite (frame_platform _ _ _ Hfr)|done|].
  exists t0, t, version. rewrite Ht, Ht0, (frame_flags _ _ _ Hfr). simpl.
  split; [by rewrite <- !app_assoc|]. split; [by apply Himp0|]. done.
Qed.

Lemma linux_import_log_witness :
  exists t0 t version,
    trace (snd (import_pyhdk_module demo_host (running_world "linux" 2 ∅))) =
      [] ++ t0 ++ [EvGetFlags; EvSetFlags (Z.lor RTLD_LAZY RTLD_GLOBAL)] ++ t ++
      [EvSetFlags 2; EvCall version "str"] /\
    imports_of t0 = ["sys"; "os"] /\
    Forall (import_event_at 2) t0 /\
    Forall (import_event_at (Z.lor RTLD_LAZY RTLD_GLOBAL)) t /\
    imports_of t = engine_modules.
Proof.
  apply (linux_import_log demo_host (running_world "linux" 2 ∅)).
  - reflexivity.
  - reflexivity.
  - vm_compute. reflexivity.
Defined.

(** X6.  A run of the module that succeeds binds no global of the package
    but the ones the source names: [sys] and [os], the imported names and the
    submodules of the import block, [__version__], and on linux only the
    variable [prev].  Every other global, such as the attributes that the
    import system has set on the package, is after the run what it was
    before. *)
Theorem package_globals_bounded (h : Host) (w w' : World) (n : string) :
  pyhdk_module h w = (Ok tt, w') ->
  n ∉ "sys" :: "os" :: "__version__" :: block_names ->
  (n = "prev" -> platform w ≠ "linux") ->
  globals w' !! n = globals w !! n.
Proof. apply pyhdk_module_globals_frame. Qed.

Lemma package_globals_bounded_witness :
  globals (snd (pyhdk_module demo_host (named_package_world "linux" 2 ∅))) !! "__name__"
    = Some (VStr "pyhdk").
Proof.
  refine (package_globals_bounded demo_host (named_package_world "linux" 2 ∅)
            (snd (pyhdk_module demo_host (named_package_world "linux" 2 ∅)))
            "__name__" _ _ _).
  - vm_compute. reflexivity.
  - closed_names.
  - discriminate.
Defined.

(** X7.  The variable [prev] of line 14 is a global of the package: after a
    first [import pyhdk] that succeeds on linux it is still there and holds
    the mask that was saved, which is the mask in force again; on any other
    platform the package has no global [prev]. *)
Theorem prev_global (h : Host) (w w' : World) :
  sys_modules w !! pkg = None ->
  import_pyhdk h w = (Ok tt, w') ->
  (platform w = "linux" ->
   globals w' !! "prev" = Some (VInt (dlopenflags w)) /\
   dlopenflags w' = dlopenflags w) /\
  (platform w ≠ "linux" -> globals w' !! "prev" = None).
Proof.
  intros Hnew H. apply import_pyhdk_first_ok in H; [|done]. split.
  - intros Hp. split.
    + by apply (pyhdk_body_prev h (register_pkg w) tt w').
    + by apply (pyhdk_body_flags h (register_pkg w) tt w').
  - intros Hp. destruct (globals w' !! "prev") as [v|] eqn:Hprev; [|done].
    exfalso.
    destruct (pyhdk_body_globals_bound h _ _ _ "prev" (globals_register_pkg w) H)
      as [Hin|[?|[_ ?]]]; [by rewrite Hprev| |done|done].
    revert Hin. unfold block_names. set_unfold. intuition discriminate.
Qed.

Lemma prev_global_witness :
  globals (snd (import_pyhdk demo_host (fresh_world "linux" 2 ∅))) !! "prev" =
    Some (VInt 2) /\
  globals (snd (import_pyhdk demo_host (fresh_world "darwin" 2 ∅))) !! "prev" = None.
Proof.
  split.
  - refine (proj1 (proj1 (prev_global demo_host (fresh_world "linux" 2 ∅) _ eq_refl _)
                     eq_refl)).
    vm_compute. reflexivity.
  - refine (proj2 (prev_global demo_host (fresh_world "darwin" 2 ∅) _ eq_refl _) _).
    + vm_compute. reflexivity.
    + discriminate.
Defined.

(** X8.  On linux [import pyhdk] has nothing to do with Java, however it
    ends: it does not look [JAVA_HOME] up, does not need it, and adds no DLL
    directory; the environment and the DLL search path are as before. *)
Theorem linux_ignores_java_home (h : Host) (w w' : World) (r : Result unit) :
  platform w = "linux" ->
  import_pyhdk h w = (r, w') ->
  environ w' = environ w /\
  dll_dirs w' = dll_dirs w /\
  exists t, trace w' = trace w ++ t /\ Forall (fun e => java_event e = false) t.
Proof.
  intros Hp H. unfold import_pyhdk in H.
  destruct (sys_modules w !! pkg) as [d|].
  { inversion H; subst. repeat split. exists []. by rewrite app_nil_r. }
  destruct (pyhdk_body h (register_pkg w)) as [r1 w1] eqn:Hbody.
  apply pyhdk_body_linux_no_java in Hbody as (_ & He & Hd & Ht); [|done].
  by destruct r1; inversion H; subst.
Qed.

Lemma linux_ignores_java_home_witness :
  let w' := snd (import_pyhdk demo_host (fresh_world "linux" 2 ∅)) in
  environ w' = ∅ /\ dll_dirs w' = [] /\
  exists t, trace w' = [] ++ t /\ Forall (fun e => java_event e = false) t.
Proof.
  apply (linux_ignores_java_home demo_host (fresh_world "linux" 2 ∅) _ (Ok tt)).
  - reflexivity.
  - vm_compute. reflexivity.
Defined.

(** X9.  The win32 branch is not idempotent: each run of the body calls
    [os.add_dll_directory].  After a first [import pyhdk] that succeeded on
    win32 the Java server directory is on the DLL search path once; when the
    body is run again ([importlib.reload]) it succeeds and the directory is
    there twice. *)
Theorem reload_adds_dll_directory_again (h : Host) (w w1 : World) :
  platform w = "win32" ->
  sys_modules w !! pkg = None ->
  import_pyhdk h w = (Ok tt, w1) ->
  exists java_home w2,
    environ w !! "JAVA_HOME" = Some java_home /\
    reload_pyhdk h w1 = (Ok tt, w2) /\
    let dir := path_join h java_home ["bin"; "server"] in
    dll_dirs w1 = dll_dirs w ++ [dir] /\
    dll_dirs w2 = dll_dirs w ++ [dir; dir].
Proof.
  intros Hp Hnew H. apply import_pyhdk_first_ok in H; [|done].
  pose proof (pyhdk_body_initialised h _ _ _ (register_pkg_registered w) H) as Hinit.
  destruct (relates_run _ _ _ _ _ (pyhdk_body_stable h) H) as [Hp1 He1].
  simpl in Hp1, He1.
  destruct (init_java _ _ Hinit) as (java_home & Hj & Hok); [by rewrite Hp1|].
  destruct (pyhdk_body_again h _ Hinit) as (w2 & Hbody & _).
  destruct (init_registered _ _ Hinit) as [d Hd].
  exists java_home, w2. split; [by rewrite <- He1|].
  split; [unfold reload_pyhdk; by rewrite Hd|].
  assert (dll_dirs w1 = dll_dirs w ++ [path_join h java_home ["bin"; "server"]]) as Hd1.
  { eapply (pyhdk_body_win32_dll h (register_pkg w));
      [done| |exact Hok|exact H].
    simpl. by rewrite <- He1. }
  split; [done|].
  rewrite (pyhdk_body_win32_dll h w1 java_home _ _ ltac:(by rewrite Hp1) Hj Hok Hbody),
    Hd1.
  by rewrite <- app_assoc.
Qed.

Lemma reload_adds_dll_directory_again_witness :
  let w := fresh_world "win32" 2 (<["JAVA_HOME" := "C:\jdk"]> ∅) in
  exists java_home w2,
    environ w !! "JAVA_HOME" = Some java_home /\
    reload_pyhdk demo_host (snd (import_pyhdk demo_host w)) = (Ok tt, w2) /\
    let dir := path_join demo_host java_home ["bin"; "server"] in
    dll_dirs (snd (import_pyhdk demo_host w)) = dll_dirs w ++ [dir] /\
    dll_dirs w2 = dll_dirs w ++ [dir; dir].
Proof.
  apply (reload_adds_dll_directory_again demo_host
           (fresh_world "win32" 2 (<["JAVA_HOME" := "C:\jdk"]> ∅))).
  - reflexivity.
  - reflexivity.
  - vm_compute. reflexivity.
Defined.

(** X10.  The import succeeds whenever nothing stands in its way: in a
    process where neither the package nor any engine module is registered
    yet, on win32 with [JAVA_HOME] set to a runtime whose server directory
    the system accepts, over an engine whose seven modules load and hold the
    names imported from them and whose [Version.str()] returns,
    [import pyhdk] returns normally. *)
Theorem import_succeeds_over_complete_engine (h : Host) (w : World) :
  complete_engine h ->
  Forall (fun name => sys_modules w !! name = None) (pkg :: engine_modules) ->
  (platform w = "win32" ->
   exists java_home,
     environ w !! "JAVA_HOME" = Some java_home /\
     dll_directory_ok h (path_join h java_home ["bin"; "server"]) = true) ->
  exists w', import_pyhdk h w = (Ok tt, w').
Proof.
  intros Hcomplete Hnone Hjava.
  apply Forall_cons_1 in Hnone as [Hnew Hnone].
  destruct (pyhdk_body_total h (register_pkg w) Hcomplete) as [w' Hbody].
  - apply Forall_forall. intros name Hname. simpl.
    rewrite lookup_insert_ne;
      [|intros <-; by apply (proj1 (Forall_forall _ _) engine_modules_ne_pkg pkg)].
    by apply (proj1 (Forall_forall _ _) Hnone).
  - done.
  - exists w'. unfold import_pyhdk. by rewrite Hnew, Hbody.
Qed.

Lemma import_succeeds_over_complete_engine_witness :
  exists w',
    import_pyhdk demo_host (fresh_world "win32" 2 (<["JAVA_HOME" := "C:\jdk"]> ∅)) =
      (Ok tt, w').
Proof.
  apply (import_succeeds_over_complete_engine demo_host
           (fresh_world "win32" 2 (<["JAVA_HOME" := "C:\jdk"]> ∅))).
  - exact demo_host_complete.
  - repeat apply List.Forall_cons; try apply List.Forall_nil; reflexivity.
  - intros _. exists "C:\jdk". split; reflexivity.
Defined.

(** X11.  On linux a failed import costs the process its mask for good.  When
    the import block raises, the mask stays [RTLD_LAZY | RTLD_GLOBAL] and the
    package with its variable [prev] is dropped from [sys.modules]; an
    [import pyhdk] tried again in that state, over any engine, saves and sets
    back the lazy/global mask, so that after it has succeeded the mask is
    still [RTLD_LAZY | RTLD_GLOBAL], not the one the process started with. *)
Theorem mask_lost_after_failed_import (h h2 : Host) (w w1 w2 : World) (e : Exn) :
  platform w = "linux" ->
  sys_modules w !! pkg = None ->
  import_block h (snd (platform_setup h (register_pkg w))) = (Raise e, w1) ->
  import_pyhdk h2 (unregister_pkg w1) = (Ok tt, w2) ->
  import_pyhdk h w = (Raise e, unregister_pkg w1) /\
  sys_modules (unregister_pkg w1) !! pkg = None /\
  dlopenflags w2 = Z.lor RTLD_LAZY RTLD_GLOBAL.
Proof.
  intros Hp Hnew Hblock Hretry.
  assert (platform (register_pkg w) = "linux") as Hp' by done.
  pose proof (platform_setup_linux h _ Hp') as Hsetup.
  rewrite Hsetup in Hblock. simpl in Hblock.
  pose proof (relates_run _ _ _ _ _ (import_block_frame h) Hblock) as Hfr.
  assert (sys_modules (unregister_pkg w1) !! pkg = None) as Hgone
    by apply lookup_delete_eq.
  split; [|split; [done|]].
  - unfold import_pyhdk, pyhdk_body. rewrite Hnew.
    rewrite (bind_ok _ _ _ _ _ Hsetup). by rewrite (bind_raise _ _ _ _ _ Hblock).
  - apply import_pyhdk_first_ok in Hretry; [|done].
    assert (platform (register_pkg (unregister_pkg w1)) = "linux") as Hp1
      by (simpl; by rewrite (frame_platform _ _ _ Hfr)).
    rewrite (pyhdk_body_restores h2 _ _ _ Hp1 Hretry).
    apply (frame_flags _ _ _ Hfr).
Qed.

Lemma mask_lost_after_failed_import_witness :
  let w1 := snd (import_block broken_sql_host
                   (snd (platform_setup broken_sql_host
                           (register_pkg (fresh_world "linux" 2 ∅))))) in
  dlopenflags (snd (import_pyhdk demo_host (unregister_pkg w1))) = 257.
Proof.
  refine (proj2 (proj2 (mask_lost_after_failed_import broken_sql_host demo_host
           (fresh_world "linux" 2 ∅) _ _
           (ImportError "libjvm.so: cannot open shared object file")
           eq_refl eq_refl _ _))).
  - vm_compute. reflexivity.
  - vm_compute. reflexivity.
Defined.
